(** * Dynamic-sampling distribution endpoint of sentry

    A shallow embedding of [src/sentry/api/endpoints/project_dynamic_sampling.py]:
    [percentile_fn], [_get_sample_rates_data] and the request handler
    [ProjectDynamicSamplingDistributionEndpoint.get].

    Modelling conventions.
    - Python exceptions are the left summand of [result]; a function that
      can raise returns [result A].
    - Python [float] values are exact rationals ([Q]); [int] values are [Z].
      Infinities and not-a-number are outside the model.  The module
      [Binary64] replays [percentile_fn] on IEEE-754 binary64 numbers; for
      the percentiles and the sample sizes the endpoint uses it reads the
      same position of the list as the rational model (section "Binary64
      arithmetic selects the same items").
    - The collaborators of the handler (feature flags, the discover query
      service, the ORM, the builtins [int] and [float] on strings) are the
      fields of an environment record; every query the handler issues is
      appended to a log that is threaded through the handler.

    The modules [DataForwarding], [MSTeams] and [MSTeamsNotifications]
    embed [sentry/plugins/bases/data_forwarding.py],
    [sentry/integrations/msteams/card_builder/base/base.py] and
    [sentry/integrations/msteams/notifications.py]; what those files call
    outside themselves is a record of collaborators, and the calls made
    are recorded in a trace. *)

From Stdlib Require Import ZArith QArith Qround Qabs List String Ascii Bool Lia.
From Stdlib Require Import Sorted Permutation Floats Uint63.
From Stdlib Require Import DecimalString DecimalZ DecimalPos.
Import ListNotations.

Local Open Scope string_scope.
Local Open Scope list_scope.
Local Open Scope Z_scope.

(** ** Exceptions and the error monad *)

Inductive exn : Type :=
| TypeError
| ValueError
| IndexError
| ZeroDivisionError
| QueryError (msg : string).

Inductive result (A : Type) : Type :=
| Ok (a : A)
| Raise (e : exn).

Arguments Ok {A} a.
Arguments Raise {A} e.

Definition bind {A B : Type} (r : result A) (k : A -> result B) : result B :=
  match r with
  | Ok a => k a
  | Raise e => Raise e
  end.

Declare Scope py_scope.
Delimit Scope py_scope with py.
Notation "x <- c ;; k" := (bind c (fun x => k))
  (at level 61, c at next level, right associativity) : py_scope.
Local Open Scope py_scope.

Fixpoint mapM {A B : Type} (f : A -> result B) (l : list A) : result (list B) :=
  match l with
  | [] => Ok []
  | x :: l' => y <- f x ;; ys <- mapM f l' ;; Ok (y :: ys)
  end.

(** ** Python builtins used by the module *)

Definition len {A : Type} (l : list A) : Z := Z.of_nat (List.length l).

(** [data[i]] on a list: negative indices count from the end, anything
    outside [-len, len) raises [IndexError]. *)
Definition getitem {A : Type} (data : list A) (i : Z) : result A :=
  let j := if i <? 0 then len data + i else i in
  if j <? 0 then Raise IndexError
  else match nth_error data (Z.to_nat j) with
       | Some v => Ok v
       | None => Raise IndexError
       end.

Definition Qltb (x y : Q) : bool := negb (Qle_bool y x).

(** [float.is_integer()]. *)
Definition is_integer (x : Q) : bool := Qnum x mod Zpos (Qden x) =? 0.

(** [int(x)] on a float truncates towards zero. *)
Definition py_int (x : Q) : Z := Z.quot (Qnum x) (Zpos (Qden x)).

(** [math.ceil]. *)
Definition ceil (x : Q) : Z := Qceiling x.

(** [a / b] on numbers. *)
Definition truediv (a b : Q) : result Q :=
  if Qeq_bool b 0 then Raise ZeroDivisionError else Ok (a / b)%Q.

(** [min(lst, default=None)]: the first smallest item. *)
Definition py_min (lst : list Q) : option Q :=
  match lst with
  | [] => None
  | x :: l => Some (fold_left (fun best item => if Qltb item best then item else best) l x)
  end.

(** [max(lst, default=None)]: the first largest item. *)
Definition py_max (lst : list Q) : option Q :=
  match lst with
  | [] => None
  | x :: l => Some (fold_left (fun best item => if Qltb best item then item else best) l x)
  end.

(** [sum(lst)]: left-to-right, starting from 0. *)
Definition py_sum (lst : list Q) : Q := fold_left Qplus lst 0%Q.

(** ** [percentile_fn] *)

Definition percentile_fn (data : list Q) (percentile : Q) : result (option Q) :=
  if len data =? 0 then Ok None
  else
    let pecentile_idx := (inject_Z (len data) * percentile)%Q in
    if is_integer pecentile_idx
    then v <- getitem data (py_int pecentile_idx) ;; Ok (Some v)
    else v <- getitem data (ceil pecentile_idx - 1) ;; Ok (Some v).

(** The position [percentile_fn] reads for a list of [n] items. *)
Definition rank_index (n : Z) (percentile : Q) : Z :=
  let pecentile_idx := (inject_Z n * percentile)%Q in
  if is_integer pecentile_idx then py_int pecentile_idx else ceil pecentile_idx - 1.

(** ** [_get_sample_rates_data] *)

(** The dictionary built by [_get_sample_rates_data]; its keys are fixed. *)
Record distributions : Type := mk_distributions {
  d_min : option Q;
  d_max : option Q;
  d_mean : option Q;
  d_p50 : option Q;
  d_p90 : option Q;
  d_p95 : option Q;
  d_p99 : option Q
}.

Definition mean_fn (lst : list Q) : result (option Q) :=
  if 0 <? len lst
  then m <- truediv (py_sum lst) (inject_Z (len lst)) ;; Ok (Some m)
  else Ok None.

Definition _get_sample_rates_data (data : list Q) : result distributions :=
  let v_min := py_min data in
  let v_max := py_max data in
  v_mean <- mean_fn data ;;
  v_p50 <- percentile_fn data 0.5 ;;
  v_p90 <- percentile_fn data 0.9 ;;
  v_p95 <- percentile_fn data 0.95 ;;
  v_p99 <- percentile_fn data 0.99 ;;
  Ok (mk_distributions v_min v_max v_mean v_p50 v_p90 v_p95 v_p99).

(** ** Values and rows returned by the query service *)

(** The values a result row can hold under a key. *)
Inductive pyval : Type :=
| PyNone
| PyStr (s : string)
| PyInt (z : Z)
| PyFloat (x : Q).

(** A row is a dictionary from column names to values. *)
Definition row : Type := list (string * pyval).

(** [d.get(key)]: [None] when the key is missing. *)
Fixpoint dict_get (d : row) (key : string) : pyval :=
  match d with
  | [] => PyNone
  | (k, v) :: d' => if String.eqb k key then v else dict_get d' key
  end.

(** [a < b]: numbers compare with numbers, strings with strings, and
    every other pairing (anything with [None] included) raises [TypeError]. *)
Definition py_lt (a b : pyval) : result bool :=
  match a, b with
  | PyStr s, PyStr t => Ok (String.ltb s t)
  | PyInt x, PyInt y => Ok (x <? y)
  | PyInt x, PyFloat y => Ok (Qltb (inject_Z x) y)
  | PyFloat x, PyInt y => Ok (Qltb x (inject_Z y))
  | PyFloat x, PyFloat y => Ok (Qltb x y)
  | _, _ => Raise TypeError
  end.

(** [sorted]: a stable sort that only asks [<]; an exception raised by a
    comparison aborts it.  Every item of a list of two or more items takes
    part in a comparison, so the exception behaviour does not depend on the
    sorting algorithm. *)
Section SortedBuiltin.
Context {A : Type} (lt : A -> A -> result bool).

Fixpoint insert (x : A) (l : list A) : result (list A) :=
  match l with
  | [] => Ok [x]
  | y :: l' =>
      b <- lt y x ;;
      if b then (r <- insert x l' ;; Ok (y :: r)) else Ok (x :: y :: l')
  end.

Fixpoint sorted (l : list A) : result (list A) :=
  match l with
  | [] => Ok []
  | x :: l' => s <- sorted l' ;; insert x s
  end.
End SortedBuiltin.

Definition float_lt (x y : Q) : result bool := Ok (Qltb x y).

(** [x in {"", None}]. *)
Definition in_empty_or_none (x : pyval) : bool :=
  match x with
  | PyNone => true
  | PyStr s => String.eqb s ""
  | _ => false
  end.

(** [','.join(items)]: every item must be a string. *)
Definition join_comma (items : list pyval) : result string :=
  strs <- mapM (fun v => match v with PyStr s => Ok s | _ => Raise TypeError end) items ;;
  Ok (String.concat "," strs).

(** ** Requests, responses and collaborators *)

Record Project : Type := { id : Z; organization : Z }.

(** [request.GET] and [request.user]. *)
Record Request : Type := { GET : list (string * string); user : string }.

(** [request.GET.get(key)]. *)
Fixpoint GET_get (params : list (string * string)) (key : string) : option string :=
  match params with
  | [] => None
  | (k, v) :: params' => if String.eqb k key then Some v else GET_get params' key
  end.

(** The keyword arguments of [discover.query] that differ between the two
    calls or carry data.  The flags [auto_fields], [auto_aggregations],
    [allow_metric_aggregates], [use_aggregate_conditions] and
    [transform_alias_to_input_format] are [True] in both calls. *)
Record QueryArgs : Type := {
  selected_columns : list string;
  query : string;
  start : Z;
  end_ : Z;
  project_id : list Z;
  organization_id : Z;
  orderby : list string;
  offset : Z;
  limit : Z;
  equations : list string;
  functions_acl : option (list string);
  referrer : string
}.

(** The collaborators of the handler.  Times are in seconds. *)
Record environment : Type := {
  (** [features.has(name, organization, actor=user)] *)
  features_has : string -> Z -> string -> bool;
  (** [timezone.now()] *)
  timezone_now : Z;
  (** [sentry.utils.dates.parse_stats_period]: [None] on a malformed period *)
  parse_stats_period : string -> option Z;
  (** [discover.query(...)["data"]] *)
  discover_query : QueryArgs -> result (list row);
  (** [Project.objects.filter(organization=...).values_list("id", flat=True)] *)
  projects_in_org : Z -> list Z;
  (** the builtin [int] on a string *)
  int_of_str : string -> result Z;
  (** the builtin [float] on a string *)
  float_of_str : string -> result Q
}.

(** The body of a successful response. *)
Record report : Type := {
  project_breakdown : option (list row);
  sample_size : Z;
  null_sample_rate_percentage : option Q;
  sample_rate_distributions : option distributions
}.

Inductive body : Type :=
| Detail (detail : list string)
| Details (details : string)
| Report (r : report).

Record Response : Type := { data : body; status : Z }.

Definition HTTP_200_OK : Z := 200.
Definition HTTP_400_BAD_REQUEST : Z := 400.

(** [float(x)]. *)
Definition py_float (env : environment) (x : pyval) : result Q :=
  match x with
  | PyNone => Raise TypeError
  | PyStr s => float_of_str env s
  | PyInt z => Ok (inject_Z z)
  | PyFloat q => Ok q
  end.

(** ** The handler monad: exceptions plus the log of issued queries *)

Definition handler (A : Type) : Type := list QueryArgs -> result A * list QueryArgs.

Definition ret {A : Type} (a : A) : handler A := fun log => (Ok a, log).

Definition lift {A : Type} (r : result A) : handler A := fun log => (r, log).

Definition hbind {A B : Type} (m : handler A) (k : A -> handler B) : handler B :=
  fun log =>
    match m log with
    | (Ok a, log') => k a log'
    | (Raise e, log') => (Raise e, log')
    end.

(** Issuing a query records it, whether or not the service answers. *)
Definition run_query (env : environment) (q : QueryArgs) : handler (list row) :=
  fun log => (discover_query env q, log ++ [q]).

Declare Scope handler_scope.
Delimit Scope handler_scope with handler.
Notation "x <- c ;; k" := (hbind c (fun x => k))
  (at level 61, c at next level, right associativity) : handler_scope.

(** ** [ProjectDynamicSamplingDistributionEndpoint.get] *)

Definition timedelta_hours (h : Z) : Z := h * 3600.

Definition feature_disabled_response : Response :=
  {| data := Detail ["Dynamic sampling feature flag needs to be enabled before you can perform this action."];
     status := 404 |}.

Definition too_many_projects_response : Response :=
  {| data := Details "Way too many projects in the distributed trace's project breakdown";
     status := HTTP_400_BAD_REQUEST |}.

Definition root_referrer : string := "dynamic-sampling.distribution.fetch-parent-transactions".
Definition breakdown_referrer : string := "dynamic-sampling.distribution.fetch-project-breakdown".

Definition root_transactions_query (project : Project) (query_ : string)
    (start_time end_time requested_sample_size : Z) : QueryArgs :=
  {| selected_columns := ["id"; "trace"; "trace.client_sample_rate";
                          "random_number() AS random_number"];
     query := (query_ ++ " event.type:transaction !has:trace.parent_span_id")%string;
     start := start_time;
     end_ := end_time;
     project_id := [id project];
     organization_id := organization project;
     orderby := ["-random_number"];
     offset := 0;
     limit := requested_sample_size;
     equations := [];
     functions_acl := Some ["random_number"];
     referrer := root_referrer |}.

Definition project_breakdown_query (env : environment) (project : Project)
    (trace_ids : string) (start_time end_time : Z) : QueryArgs :=
  {| selected_columns := ["project"; "count()"];
     query := ("event.type:transaction trace:[" ++ trace_ids ++ "]")%string;
     start := start_time;
     end_ := end_time;
     project_id := projects_in_org env (organization project);
     organization_id := organization project;
     orderby := [];
     offset := 0;
     limit := 20;
     equations := [];
     functions_acl := None;
     referrer := breakdown_referrer |}.

(** [request.GET.get(key, default)]. *)
Definition GET_get_default (request : Request) (key default : string) : string :=
  match GET_get (GET request) key with
  | Some v => v
  | None => default
  end.

(** [min(int(request.GET.get("sampleSize", 100)), 1000)]. *)
Definition requested_sample_size (env : environment) (request : Request) : result Z :=
  n <- match GET_get (GET request) "sampleSize" with
       | Some s => int_of_str env s
       | None => Ok 100
       end ;;
  Ok (Z.min n 1000).

(** [min(parse_stats_period(request.GET.get("statsPeriod", "1h")), timedelta(hours=24))];
    comparing [None] with a [timedelta] raises [TypeError]. *)
Definition stats_period (env : environment) (request : Request) : result Z :=
  match parse_stats_period env (GET_get_default request "statsPeriod" "1h") with
  | Some period => Ok (Z.min period (timedelta_hours 24))
  | None => Raise TypeError
  end.

Definition empty_report (sample_size_ : Z) : Response :=
  {| data := Report {| project_breakdown := None;
                       sample_size := sample_size_;
                       null_sample_rate_percentage := None;
                       sample_rate_distributions := None |};
     status := HTTP_200_OK |}.

Definition get (env : environment) (request : Request) (project : Project)
  : handler Response :=
  (if negb (features_has env "organizations:filters-and-sampling"
              (organization project) (user request))
   then ret feature_disabled_response
   else
     let query_ := GET_get_default request "query" "" in
     requested_sample_size_ <- lift (requested_sample_size env request) ;;
     let distributed_trace := String.eqb (GET_get_default request "distributedTrace" "1") "1" in
     stats_period_ <- lift (stats_period env request) ;;
     let end_time := timezone_now env in
     let start_time := end_time - stats_period_ in
     root_transactions <- run_query env
       (root_transactions_query project query_ start_time end_time requested_sample_size_) ;;
     let sample_size_ := len root_transactions in
     sample_rates <- lift (sorted py_lt
       (map (fun transaction => dict_get transaction "trace.client_sample_rate")
            root_transactions)) ;;
     if len sample_rates =? 0
     then ret (empty_report sample_size_)
     else
       floats <- lift (mapM (py_float env)
                         (filter (fun sample_rate => negb (in_empty_or_none sample_rate))
                                 sample_rates)) ;;
       non_null_sample_rates <- lift (sorted float_lt floats) ;;
       let respond (project_breakdown_ : option (list row)) : handler Response :=
         ratio <- lift (truediv (inject_Z (sample_size_ - len non_null_sample_rates))
                                (inject_Z sample_size_)) ;;
         dists <- lift (_get_sample_rates_data non_null_sample_rates) ;;
         ret {| data := Report {| project_breakdown := project_breakdown_;
                                  sample_size := sample_size_;
                                  null_sample_rate_percentage := Some (ratio * 100)%Q;
                                  sample_rate_distributions := Some dists |};
                status := HTTP_200_OK |} in
       if distributed_trace
       then
         trace_id_list <- lift (join_comma
           (map (fun transaction => dict_get transaction "trace") root_transactions)) ;;
         breakdown <- run_query env
           (project_breakdown_query env project trace_id_list start_time end_time) ;;
         if 10 <? len breakdown
         then ret too_many_projects_response
         else respond (Some breakdown)
       else respond None)%handler.

(** ** A concrete environment for the scenarios *)

Definition digit_of (c : ascii) : option Z :=
  let n := Z.of_nat (nat_of_ascii c) in
  if (48 <=? n) && (n <=? 57) then Some (n - 48) else None.

Fixpoint digits_value (s : string) (acc : Z) : option Z :=
  match s with
  | EmptyString => Some acc
  | String c s' =>
      match digit_of c with
      | Some d => digits_value s' (10 * acc + d)
      | None => None
      end
  end.

(** [int] on an unsigned decimal literal; every other string is rejected. *)
Definition decimal_int (s : string) : result Z :=
  match s, digits_value s 0 with
  | String _ _, Some z => Ok z
  | _, _ => Raise ValueError
  end.

Fixpoint split_dot (s : string) : string * option string :=
  match s with
  | EmptyString => (EmptyString, None)
  | String c s' =>
      if Ascii.eqb c "." then (EmptyString, Some s')
      else let (a, b) := split_dot s' in (String c a, b)
  end.

(** [float] on an unsigned decimal literal such as ["0.25"] or ["1"];
    every other string is rejected. *)
Definition decimal_float (s : string) : result Q :=
  match split_dot s with
  | (i, None) => z <- decimal_int i ;; Ok (inject_Z z)
  | (i, Some f) =>
      match digits_value i 0, digits_value f 0 with
      | Some a, Some b =>
          if (String.length i + String.length f =? 0)%nat then Raise ValueError
          else let scale := 10 ^ Z.of_nat (String.length f) in
               Ok (Qmake (a * scale + b) (Z.to_pos scale))
      | _, _ => Raise ValueError
      end
  end.

(** An organization with the feature enabled whose query service answers
    the root-transaction query with [roots] and the breakdown query with
    [breakdown]. *)
Definition scenario_env (roots breakdown : list row) : environment :=
  {| features_has := fun _ _ _ => true;
     timezone_now := 1650000000;
     parse_stats_period := fun s => if String.eqb s "1h" then Some 3600
                                    else if String.eqb s "24h" then Some 86400
                                    else None;
     discover_query := fun q => if String.eqb (referrer q) root_referrer then Ok roots
                                else Ok breakdown;
     projects_in_org := fun _ => [1; 2; 3];
     int_of_str := decimal_int;
     float_of_str := decimal_float |}.

Definition scenario_project : Project := {| id := 1; organization := 7 |}.

Definition scenario_request (distributed : string) : Request :=
  {| GET := [("distributedTrace", distributed)]; user := "owner" |}.

Definition root_row (trace_id : string) (rate : pyval) : row :=
  [("id", PyStr "6ddc83ee612b4e89b95b5278c8fd188f"); ("trace", PyStr trace_id);
   ("trace.client_sample_rate", rate); ("random_number", PyInt 4255299100)].

Definition breakdown_row (n : nat) : row :=
  [("project", PyInt (Z.of_nat n)); ("count()", PyInt 2)].

(** The client sample rates of scenario B as strings, the empty string
    standing for a missing rate. *)
Definition string_rates : list pyval :=
  [PyStr "0.1"; PyStr ""; PyStr "0.2"; PyStr "0.5"; PyStr ""].

(** Scenario C: five root transactions whose traces span [n] projects. *)
Definition fan_out_env (n : nat) : environment :=
  scenario_env (map (root_row "6503ee33b7bc43aead1facaa625a5dba") string_rates)
               (map breakdown_row (seq 1 n)).

Definition fan_out_breakdown_query : QueryArgs :=
  project_breakdown_query (fan_out_env 11) scenario_project
    "6503ee33b7bc43aead1facaa625a5dba,6503ee33b7bc43aead1facaa625a5dba,6503ee33b7bc43aead1facaa625a5dba,6503ee33b7bc43aead1facaa625a5dba,6503ee33b7bc43aead1facaa625a5dba"
    (1650000000 - 3600) 1650000000.

(** Scenario B with the rates as strings. *)
Definition scenario_b_env : environment :=
  scenario_env (map (root_row "6503ee33b7bc43aead1facaa625a5dba") string_rates) [].

Definition scenario_b_root_query : QueryArgs :=
  root_transactions_query scenario_project "" (1650000000 - 3600) 1650000000 100.

Definition scenario_b_distributions : distributions :=
  {| d_min := Some 0.1%Q;
     d_max := Some 0.5%Q;
     d_mean := Some ((0 + 0.1 + 0.2 + 0.5) / inject_Z 3)%Q;
     d_p50 := Some 0.2%Q;
     d_p90 := Some 0.5%Q;
     d_p95 := Some 0.5%Q;
     d_p99 := Some 0.5%Q |}.

Definition scenario_b_report : report :=
  {| project_breakdown := None;
     sample_size := 5;
     null_sample_rate_percentage := Some (inject_Z (5 - 3) / inject_Z 5 * 100)%Q;
     sample_rate_distributions := Some scenario_b_distributions |}.

(** Scenario B with the rates as numbers and [None]. *)
Definition scenario_b_none_env : environment :=
  scenario_env (map (root_row "6503ee33b7bc43aead1facaa625a5dba")
                    [PyFloat 0.1; PyNone; PyFloat 0.2; PyFloat 0.5; PyNone]) [].

(** ** The outcomes of the handler *)

Definition full_report (breakdown : option (list row)) (n : Z) (rates : list Q)
    (dists : distributions) : Response :=
  {| data := Report {| project_breakdown := breakdown;
                       sample_size := n;
                       null_sample_rate_percentage :=
                         Some ((inject_Z (n - len rates) / inject_Z n) * 100)%Q;
                       sample_rate_distributions := Some dists |};
     status := HTTP_200_OK |}.

(** Every way a call of [get] can end, with the queries it has issued. *)
Inductive outcome (env : environment) : result Response -> list QueryArgs -> Prop :=
| out_disabled :
    outcome env (Ok feature_disabled_response) []
| out_bad_request e :
    outcome env (Raise e) []
| out_root_failed q1 e :
    referrer q1 = root_referrer -> discover_query env q1 = Raise e ->
    outcome env (Raise e) [q1]
| out_bad_rows q1 rows e :
    referrer q1 = root_referrer -> discover_query env q1 = Ok rows -> rows <> [] ->
    outcome env (Raise e) [q1]
| out_empty q1 :
    referrer q1 = root_referrer -> discover_query env q1 = Ok [] ->
    outcome env (Ok (empty_report 0)) [q1]
| out_breakdown_failed q1 q2 rows e :
    referrer q1 = root_referrer -> discover_query env q1 = Ok rows -> rows <> [] ->
    referrer q2 = breakdown_referrer ->
    discover_query env q2 = Raise e ->
    outcome env (Raise e) [q1; q2]
| out_too_many q1 q2 rows breakdown :
    referrer q1 = root_referrer -> discover_query env q1 = Ok rows -> rows <> [] ->
    referrer q2 = breakdown_referrer ->
    discover_query env q2 = Ok breakdown -> 10 < len breakdown ->
    outcome env (Ok too_many_projects_response) [q1; q2]
| out_report_breakdown q1 q2 rows breakdown rates dists :
    referrer q1 = root_referrer -> discover_query env q1 = Ok rows -> rows <> [] ->
    referrer q2 = breakdown_referrer ->
    discover_query env q2 = Ok breakdown -> len breakdown <= 10 ->
    len rates <= len rows -> Sorted Qle rates ->
    _get_sample_rates_data rates = Ok dists ->
    outcome env (Ok (full_report (Some breakdown) (len rows) rates dists)) [q1; q2]
| out_report_single q1 rows rates dists :
    referrer q1 = root_referrer -> discover_query env q1 = Ok rows -> rows <> [] ->
    len rates <= len rows -> Sorted Qle rates ->
    _get_sample_rates_data rates = Ok dists ->
    outcome env (Ok (full_report None (len rows) rates dists)) [q1].

(** ** [percentile_fn] on binary64 numbers

    The same function with Python's [float] read as IEEE-754 binary64:
    the product [len(data) * percentile] is the rounded one. *)
Module Binary64.

Definition of_int (n : Z) : float := PrimFloat.of_uint63 (Uint63.of_Z n).

(** [float.is_integer()]: false on infinities and not-a-number. *)
Definition is_integer (x : float) : bool :=
  match Prim2SF x with
  | S754_zero _ => true
  | S754_finite _ m e => if 0 <=? e then true else Zpos m mod 2 ^ (- e) =? 0
  | _ => false
  end.

(** [int(x)]: truncation; [None] where Python raises (infinities,
    not-a-number). *)
Definition py_int (x : float) : option Z :=
  match Prim2SF x with
  | S754_zero _ => Some 0
  | S754_finite s m e =>
      let v := if 0 <=? e then Zpos m * 2 ^ e else Zpos m / 2 ^ (- e) in
      Some (if s then - v else v)
  | _ => None
  end.

(** [math.ceil(x)]; [None] where Python raises. *)
Definition ceil (x : float) : option Z :=
  match Prim2SF x with
  | S754_zero _ => Some 0
  | S754_finite s m e =>
      if 0 <=? e then Some ((if s then -1 else 1) * Zpos m * 2 ^ e)
      else Some (if s then - (Zpos m / 2 ^ (- e))
                 else - ((- Zpos m) / 2 ^ (- e)))
  | _ => None
  end.

Definition of_option {A : Type} (o : option A) : result A :=
  match o with
  | Some a => Ok a
  | None => Raise ValueError
  end.

Definition percentile_fn (data : list float) (percentile : float) : result (option float) :=
  if len data =? 0 then Ok None
  else
    let pecentile_idx := PrimFloat.mul (of_int (len data)) percentile in
    if is_integer pecentile_idx
    then i <- of_option (py_int pecentile_idx) ;; v <- getitem data i ;; Ok (Some v)
    else c <- of_option (ceil pecentile_idx) ;; v <- getitem data (c - 1) ;; Ok (Some v).

(** [(sample_size - len(non_null_sample_rates)) / sample_size * 100]. *)
Definition null_sample_rate_percentage (sample_size_ non_null : Z) : float :=
  PrimFloat.mul (PrimFloat.div (of_int (sample_size_ - non_null)) (of_int sample_size_))
                (of_int 100).

(** [sum(lst) / len(lst)]. *)
Definition mean (lst : list float) : float :=
  PrimFloat.div (fold_left PrimFloat.add lst (of_int 0)) (of_int (len lst)).

(** The position [percentile_fn] reads for a list of [n] items. *)
Definition rank_index (n : Z) (percentile : float) : option Z :=
  let pecentile_idx := PrimFloat.mul (of_int n) percentile in
  if is_integer pecentile_idx then py_int pecentile_idx
  else option_map (fun c => c - 1) (ceil pecentile_idx).

End Binary64.

Set Warnings "-inexact-float".

(** The percentiles [_get_sample_rates_data] asks for, as binary64
    literals and as the decimals they are written as. *)
Definition summary_percentiles : list (float * Q) :=
  [(0.5%float, 0.5%Q); (0.9%float, 0.9%Q); (0.95%float, 0.95%Q); (0.99%float, 0.99%Q)].

(** The binary64 position is in range and is the rational model's. *)
Definition positions_agree (n : Z) (pq : float * Q) : bool :=
  match Binary64.rank_index n (fst pq) with
  | Some i => (i =? rank_index n (snd pq)) && (0 <=? i) && (i <? n)
  | None => false
  end.

(** Strings, and numbers ([int] or [float]), are the two kinds of values
    that [<] orders. *)
Definition is_str (v : pyval) : bool :=
  match v with
  | PyStr _ => true
  | _ => false
  end.

Definition is_number (v : pyval) : bool :=
  match v with
  | PyInt _ | PyFloat _ => true
  | _ => false
  end.


(** ** The runs of the handler, step by step *)

(** [transaction.get("trace.client_sample_rate")] over the sample. *)
Definition client_sample_rates (root_transactions : list row) : list pyval :=
  map (fun transaction => dict_get transaction "trace.client_sample_rate") root_transactions.

(** [transaction.get("trace")] over the sample. *)
Definition trace_id_list (root_transactions : list row) : list pyval :=
  map (fun transaction => dict_get transaction "trace") root_transactions.

(** The rates that are neither [""] nor [None]. *)
Definition non_null (sample_rates : list pyval) : list pyval :=
  filter (fun sample_rate => negb (in_empty_or_none sample_rate)) sample_rates.

(** [request.GET.get("distributedTrace", "1") == "1"]. *)
Definition distributed_trace (request : Request) : bool :=
  String.eqb (GET_get_default request "distributedTrace" "1") "1".

(** The first query of a request whose parameters are [n] and [period]. *)
Definition root_query (env : environment) (request : Request) (project : Project)
    (n period : Z) : QueryArgs :=
  root_transactions_query project (GET_get_default request "query" "")
    (timezone_now env - period) (timezone_now env) n.

(** The second query of such a request, for the joined trace ids [ids]. *)
Definition breakdown_query (env : environment) (project : Project)
    (ids : string) (period : Z) : QueryArgs :=
  project_breakdown_query env project ids (timezone_now env - period) (timezone_now env).

(** What the handler has computed when it reaches the distributed-trace
    test: the rows of the sample, the rates in sorted order, their numeric
    values in that order and the sorted numeric rates. *)
Record sample (env : environment) (rows : list row) (sample_rates : list pyval)
    (floats rates : list Q) : Prop := {
  sample_nonempty : rows <> [];
  sample_sorted : sorted py_lt (client_sample_rates rows) = Ok sample_rates;
  sample_floats : mapM (py_float env) (non_null sample_rates) = Ok floats;
  sample_rates_sorted : sorted float_lt floats = Ok rates
}.

(** Every run of [get], with the step at which it ends. *)
Inductive execution (env : environment) (request : Request) (project : Project)
  : result Response -> list QueryArgs -> Prop :=
| run_disabled :
    features_has env "organizations:filters-and-sampling"
      (organization project) (user request) = false ->
    execution env request project (Ok feature_disabled_response) []
| run_bad_sample_size e :
    features_has env "organizations:filters-and-sampling"
      (organization project) (user request) = true ->
    requested_sample_size env request = Raise e ->
    execution env request project (Raise e) []
| run_bad_stats_period n e :
    features_has env "organizations:filters-and-sampling"
      (organization project) (user request) = true ->
    requested_sample_size env request = Ok n ->
    stats_period env request = Raise e ->
    execution env request project (Raise e) []
| run_queried n period res log :
    features_has env "organizations:filters-and-sampling"
      (organization project) (user request) = true ->
    requested_sample_size env request = Ok n ->
    stats_period env request = Ok period ->
    queried env request project n period res log ->
    execution env request project res (root_query env request project n period :: log)

with queried (env : environment) (request : Request) (project : Project)
  : Z -> Z -> result Response -> list QueryArgs -> Prop :=
| run_root_failed n period e :
    discover_query env (root_query env request project n period) = Raise e ->
    queried env request project n period (Raise e) []
| run_unsortable n period rows e :
    discover_query env (root_query env request project n period) = Ok rows ->
    sorted py_lt (client_sample_rates rows) = Raise e ->
    queried env request project n period (Raise e) []
| run_empty n period :
    discover_query env (root_query env request project n period) = Ok [] ->
    queried env request project n period (Ok (empty_report 0)) []
| run_bad_rate n period rows sample_rates e :
    discover_query env (root_query env request project n period) = Ok rows ->
    rows <> [] ->
    sorted py_lt (client_sample_rates rows) = Ok sample_rates ->
    mapM (py_float env) (non_null sample_rates) = Raise e ->
    queried env request project n period (Raise e) []
| run_single n period rows sample_rates floats rates dists :
    discover_query env (root_query env request project n period) = Ok rows ->
    sample env rows sample_rates floats rates ->
    distributed_trace request = false ->
    _get_sample_rates_data rates = Ok dists ->
    queried env request project n period
      (Ok (full_report None (len rows) rates dists)) []
| run_bad_trace n period rows sample_rates floats rates e :
    discover_query env (root_query env request project n period) = Ok rows ->
    sample env rows sample_rates floats rates ->
    distributed_trace request = true ->
    join_comma (trace_id_list rows) = Raise e ->
    queried env request project n period (Raise e) []
| run_breakdown_failed n period rows sample_rates floats rates ids e :
    discover_query env (root_query env request project n period) = Ok rows ->
    sample env rows sample_rates floats rates ->
    distributed_trace request = true ->
    join_comma (trace_id_list rows) = Ok ids ->
    discover_query env (breakdown_query env project ids period) = Raise e ->
    queried env request project n period (Raise e)
      [breakdown_query env project ids period]
| run_too_many n period rows sample_rates floats rates ids breakdown :
    discover_query env (root_query env request project n period) = Ok rows ->
    sample env rows sample_rates floats rates ->
    distributed_trace request = true ->
    join_comma (trace_id_list rows) = Ok ids ->
    discover_query env (breakdown_query env project ids period) = Ok breakdown ->
    10 < len breakdown ->
    queried env request project n period (Ok too_many_projects_response)
      [breakdown_query env project ids period]
| run_breakdown n period rows sample_rates floats rates ids breakdown dists :
    discover_query env (root_query env request project n period) = Ok rows ->
    sample env rows sample_rates floats rates ->
    distributed_trace request = true ->
    join_comma (trace_id_list rows) = Ok ids ->
    discover_query env (breakdown_query env project ids period) = Ok breakdown ->
    len breakdown <= 10 ->
    _get_sample_rates_data rates = Ok dists ->
    queried env request project n period
      (Ok (full_report (Some breakdown) (len rows) rates dists))
      [breakdown_query env project ids period].

(** The binary64 null percentage of a sample of [n] rows, [k] of them with
    a numeric rate, lies in [[0, 100]], is 100 when [k = 0] and 0 when
    [k = n]. *)
Definition percentage_in_range (n k : Z) : bool :=
  let pct := Binary64.null_sample_rate_percentage n k in
  PrimFloat.leb 0 pct && PrimFloat.leb pct 100
  && (if k =? 0 then PrimFloat.eqb pct 100 else true)
  && (if k =? n then PrimFloat.eqb pct 0 else true).

(** The check for [k], [k + 1], ... ([count] values) and a fixed [n]. *)
Fixpoint percentages_in_range (n : Z) (count : nat) (k : Z) : bool :=
  match count with
  | O => true
  | S count' => percentage_in_range n k && percentages_in_range n count' (k + 1)
  end.

(** The check for [n], [n + 1], ... ([count] values) and every [k] from 0
    to [n]. *)
Fixpoint samples_in_range (count : nat) (n : Z) : bool :=
  match count with
  | O => true
  | S count' =>
      percentages_in_range n (Z.to_nat (n + 1)) 0 && samples_in_range count' (n + 1)
  end.

(** ** [sentry/plugins/bases/data_forwarding.py]

    The plugin class is a record of what a subclass overrides ([conf_key],
    [get_rate_limit], [forward_event]); [get_rl_key], [get_event_payload]
    and [initialize_variables] are the ones of the base class.  The calls
    made to the hooks, the rate limiter, the logger and the time-series
    store are recorded in a trace. *)
Module DataForwarding.

Inductive raised : Type :=
| NotImplementedError
| Exception (name : string).

Record EventProject : Type := { id : Z; organization_id : Z }.

Record Event : Type := {
  event_id : string;
  group_id : Z;
  project_id : Z;
  project : EventProject
}.

(** A plugin class: [conf_key], and the methods subclasses override. *)
Record Plugin : Type := {
  conf_key : string;
  get_rate_limit : Z * Z;
  forward_event : Event -> string -> raised + bool
}.

(** [DataForwardingPlugin] itself, for a given [conf_key]. *)
Definition base_plugin (key : string) : Plugin :=
  {| conf_key := key;
     get_rate_limit := (50, 1);
     forward_event := fun _ _ => inl NotImplementedError |}.

(** The services the module calls. *)
Record services : Type := {
  (** [ratelimits.is_limited(key, limit=limit, window=window)] *)
  is_limited : string -> Z -> Z -> bool;
  (** [serialize(event)] *)
  serialize : Event -> string
}.

Inductive action : Type :=
| InitializeVariables (event : Event)
| IsLimited (key : string) (limit window : Z)
| LogInfo (message : string) (event_id_ : string) (issue_id project_id_ organization_id_ : Z)
| ForwardEvent (event : Event) (payload : string)
| TsdbIncr (model : string) (key : Z) (count : Z).

(** [str] of an integer. *)
Definition str_int (z : Z) : string := NilZero.string_of_int (Z.to_int z).

(** [get_rl_key]: [f"{self.conf_key}:{event.project.organization_id}"]. *)
Definition get_rl_key (self : Plugin) (event : Event) : string :=
  (conf_key self ++ ":" ++ str_int (organization_id (project event)))%string.

(** [is_ratelimited]: the result and the calls made. *)
Definition is_ratelimited (svc : services) (self : Plugin) (event : Event)
  : bool * list action :=
  let rl_key := get_rl_key self event in
  let (limit, window) := get_rate_limit self in
  if negb (limit =? 0) then
    if negb (window =? 0) then
      if is_limited svc rl_key limit window
      then (true, [InitializeVariables event; IsLimited rl_key limit window;
                   LogInfo "data_forwarding.skip_rate_limited" (event_id event)
                     (group_id event) (project_id event)
                     (organization_id (project event))])
      else (false, [InitializeVariables event; IsLimited rl_key limit window])
    else (false, [InitializeVariables event])
  else (false, [InitializeVariables event]).

(** [post_process]: what it raises, if anything, and the calls made. *)
Definition post_process (svc : services) (self : Plugin) (event : Event)
  : option raised * list action :=
  let (limited, trace) := is_ratelimited svc self event in
  if limited then (None, trace)
  else
    let payload := serialize svc event in
    match forward_event self event payload with
    | inl e => (Some e, trace ++ [ForwardEvent event payload])
    | inr success =>
        (None, trace ++ [ForwardEvent event payload;
                         TsdbIncr "project_total_forwarded" (id (project event)) 1])
    end.

Definition is_forward (a : action) : bool :=
  match a with ForwardEvent _ _ => true | _ => false end.

Definition is_incr (a : action) : bool :=
  match a with TsdbIncr _ _ _ => true | _ => false end.

Definition is_limiter_call (a : action) : bool :=
  match a with IsLimited _ _ _ => true | _ => false end.

End DataForwarding.

Set Warnings "-register-all".

(** ** [sentry/integrations/msteams/card_builder/base/base.py] *)
Module MSTeams.

(** The JSON-like values cards are made of. *)
Inductive value : Type :=
| VNone
| VBool (b : bool)
| VStr (s : string)
| VList (items : list value)
| VDict (entries : list (string * value)).

(** Truth value of an object in a condition. *)
Definition truthy (v : value) : bool :=
  match v with
  | VNone => false
  | VBool b => b
  | VStr s => negb (String.eqb s "")
  | VList items => match items with [] => false | _ => true end
  | VDict entries => match entries with [] => false | _ => true end
  end.

Inductive TextSize : Type := SMALL | MEDIUM | LARGE.

(** [TextSize.value]. *)
Definition TextSize_value (size : TextSize) : string :=
  match size with
  | SMALL => "Small"
  | MEDIUM => "Medium"
  | LARGE => "Large"
  end.


Definition get_text_block (text : string) (size : option TextSize) : value :=
  VDict [("type", VStr "TextBlock");
         ("text", VStr text);
         ("wrap", VBool true);
         ("size", match size with
                  | Some s => VStr (TextSize_value s)
                  | None => VNone
                  end)].



Definition get_column_block (columns : list value) : value :=
  VDict [("type", VStr "ColumnSet");
         ("columns",
          VList (map (fun column =>
                        VDict [("type", VStr "Column");
                               ("items", VList [column]);
                               ("width", VStr "auto")])
                     columns))].

(** [kwargs.get(key)]. *)
Fixpoint kwargs_get (kwargs : list (string * value)) (key : string) : value :=
  match kwargs with
  | [] => VNone
  | (k, v) :: kwargs' => if String.eqb k key then v else kwargs_get kwargs' key
  end.

Fixpoint characters (s : string) : list value :=
  match s with
  | EmptyString => []
  | String c s' => VStr (String c EmptyString) :: characters s'
  end.

(** [body.extend(iterable)]: a list gives its items, a dictionary its
    keys, a string its characters; [None] and booleans are not iterable. *)
Definition extend (body : list value) (iterable : value) : result (list value) :=
  match iterable with
  | VList items => Ok (body ++ items)
  | VDict entries => Ok (body ++ map (fun kv => VStr (fst kv)) entries)
  | VStr s => Ok (body ++ characters s)
  | VNone | VBool _ => Raise TypeError
  end.

(** [body.append(item)]. *)
Definition append (body : list value) (item : value) : list value := body ++ [item].

(** [actions or []]. *)
Definition actions_or_empty (actions : option (list value)) : list value :=
  match actions with
  | Some (a :: l) => a :: l
  | _ => []
  end.

Definition card (body : list value) : value :=
  VDict [("body", VList body);
         ("type", VStr "AdaptiveCard");
         ("$schema", VStr "http://adaptivecards.io/schemas/adaptive-card.json");
         ("version", VStr "1.2")].

Definition _build (text title footer : value) (actions : option (list value))
    (kwargs : list (string * value)) : result value :=
  let body := [] in
  let body := if truthy title then append body title else body in
  let body := if truthy text then append body text else body in
  body <- extend body (kwargs_get kwargs "fields") ;;
  let body := if truthy footer then append body footer else body in
  let body := fold_left append (actions_or_empty actions) body in
  Ok (card body).

(** The block an optional argument contributes to the body. *)
Definition optional (block : value) : list value :=
  if truthy block then [block] else [].

End MSTeams.

(** ** [sentry/integrations/msteams/notifications.py]

    The Microsoft Teams client, the card builder for notifications and the
    notification helpers are collaborators; every call to them, and every
    log line, is recorded in a trace.  Tracing spans are left out. *)
Module MSTeamsNotifications.
Import MSTeams.

Inductive error : Type :=
| TypeError
| IndexError
| AttributeError
| KeyError
| ClientError (message : string).

(** A notification: the names of the classes of its type (its method
    resolution order), its organization and its [str]. *)
Record Notification : Type := {
  classes : list string;
  organization : Z;
  notification_str : string
}.

Record Recipient : Type := { recipient_id : Z; recipient_name : string }.

Record Integration : Type := { integration_id : Z; external_id : string }.

Definition SUPPORTED_NOTIFICATION_TYPES : list string := ["NoteActivityNotification"].

(** [isinstance(notification, notification_type)]. *)
Definition isinstance (notification : Notification) (notification_type : string) : bool :=
  existsb (String.eqb notification_type) (classes notification).

Definition is_supported_notification_type (notification : Notification) : bool :=
  existsb (fun b => b)
    (map (fun notification_type => isinstance notification notification_type)
         SUPPORTED_NOTIFICATION_TYPES).

Record services : Type := {
  (** [get_integrations_by_channel_by_recipient(organization, recipients, MSTEAMS)],
      each mapping in iteration order *)
  get_integrations_by_channel_by_recipient :
    Z -> list Recipient -> list (Recipient * list (string * Integration));
  (** [get_context(notification, recipient, shared_context, extra_context)] *)
  get_context : Notification -> Recipient -> value -> value -> value;
  (** [MSTeamsNotificationsMessageBuilder(notification, context, recipient).build()] *)
  build_card : Notification -> value -> Recipient -> error + value;
  (** [MsTeamsClient(integration).get_member_list(integration_id, None)] *)
  get_member_list : Integration -> string -> error + list (string * value);
  (** [MsTeamsClient(integration).get_user_conversation_id(user_id, tenant_id)] *)
  get_user_conversation_id : Integration -> string -> value -> error + string;
  (** [MsTeamsClient(integration).send_card(conversation_id, card)] *)
  send_card : Integration -> string -> value -> error + unit
}.

Inductive action : Type :=
| LogInfo (message : string)
| LogWarning (message : string)
| GetIntegrations (organization_ : Z) (recipients : list Recipient)
| BuildCard (recipient : Recipient) (context : value)
| GetMemberList (integration : Integration) (integration_id_ : string)
| GetUserConversationId (integration : Integration) (user_id : string) (tenant_id : value)
| SendCard (integration : Integration) (conversation_id : string) (card_ : value).

(** A computation: its result, or the exception that ended it, and the
    calls made. *)
Definition traced (A : Type) : Type := (error + A) * list action.

Definition tret {A : Type} (a : A) : traced A := (inr a, []).

Definition tbind {A B : Type} (m : traced A) (k : A -> traced B) : traced B :=
  match m with
  | (inr a, t) => let (r, t') := k a in (r, t ++ t')
  | (inl e, t) => (inl e, t)
  end.

Definition call {A : Type} (a : action) (r : error + A) : traced A := (r, [a]).

Definition log (a : action) : traced unit := (inr tt, [a]).

(** [members[0]] on what [.get("members")] returned: indexing an empty
    sequence raises [IndexError], a dictionary has no key [0], [None] and
    booleans cannot be indexed. *)
Definition first_member (members : value) : error + value :=
  match members with
  | VList (m :: _) => inr m
  | VList [] => inl IndexError
  | VStr s => match s with
              | EmptyString => inl IndexError
              | String c _ => inr (VStr (String c EmptyString))
              end
  | VDict _ => inl KeyError
  | VNone | VBool _ => inl TypeError
  end.

(** [member.get("tenantId")]: only dictionaries have [get]. *)
Definition member_tenant_id (member : value) : error + value :=
  match member with
  | VDict entries => inr (kwargs_get entries "tenantId")
  | _ => inl AttributeError
  end.

Definition get_conversation_id (svc : services) (client : Integration)
    (user_id integration_id_ : string) : traced string :=
  tbind (call (GetMemberList client integration_id_) (get_member_list svc client integration_id_))
    (fun response =>
  let members := kwargs_get response "members" in
  tbind (first_member members, []) (fun member =>
  tbind (member_tenant_id member, []) (fun tenant_id =>
  call (GetUserConversationId client user_id tenant_id)
       (get_user_conversation_id svc client user_id tenant_id)))).

(** [(extra_context_by_actor_id or {}).get(recipient.id, {})]. *)
Fixpoint extra_context_for (entries : list (Z * value)) (actor_id : Z) : value :=
  match entries with
  | [] => VDict []
  | (k, v) :: entries' => if k =? actor_id then v else extra_context_for entries' actor_id
  end.

(** The card built for a recipient: [get_context] on the shared context
    and the recipient's extra context, then the card builder. *)
Definition card_for (svc : services) (notification : Notification)
    (shared_context : value) (extra_context_by_actor_id : option (list (Z * value)))
    (recipient : Recipient) : error + value :=
  build_card svc notification
    (get_context svc notification recipient shared_context
       (extra_context_for match extra_context_by_actor_id with
                          | Some entries => entries
                          | None => []
                          end (recipient_id recipient)))
    recipient.

(** The loop over the channels of one recipient. *)
Fixpoint send_to_channels (svc : services) (card_ : value)
    (integrations_by_channel : list (string * Integration)) : traced unit :=
  match integrations_by_channel with
  | [] => tret tt
  | (channel, integration) :: rest =>
      tbind (get_conversation_id svc integration channel (external_id integration))
        (fun conversation_id =>
      tbind (log (LogWarning ("conversation_id: " ++ conversation_id))) (fun _ =>
      tbind (call (SendCard integration conversation_id card_)
                  (send_card svc integration conversation_id card_)) (fun _ =>
      send_to_channels svc card_ rest)))
  end.

(** The loop over the recipients. *)
Fixpoint send_to_recipients (svc : services) (notification : Notification)
    (shared_context : value) (extra_context_by_actor_id : option (list (Z * value)))
    (data_ : list (Recipient * list (string * Integration))) : traced unit :=
  match data_ with
  | [] => tret tt
  | (recipient, integrations_by_channel) :: rest =>
      let extra_context :=
        extra_context_for match extra_context_by_actor_id with
                          | Some entries => entries
                          | None => []
                          end (recipient_id recipient) in
      let context := get_context svc notification recipient shared_context extra_context in
      tbind (call (BuildCard recipient context) (build_card svc notification context recipient))
        (fun card_ =>
      tbind (send_to_channels svc card_ integrations_by_channel) (fun _ =>
      send_to_recipients svc notification shared_context extra_context_by_actor_id rest))
  end.

Definition send_notification_as_msteams (svc : services) (notification : Notification)
    (recipients : list Recipient) (shared_context : value)
    (extra_context_by_actor_id : option (list (Z * value))) : traced unit :=
  if negb (is_supported_notification_type notification)
  then log (LogInfo ("Unsupported notification type for Microsoft Teams "
                     ++ notification_str notification))
  else
    tbind (call (GetIntegrations (organization notification) recipients)
                (inr (get_integrations_by_channel_by_recipient svc
                        (organization notification) recipients)))
      (send_to_recipients svc notification shared_context extra_context_by_actor_id).

Definition is_send (a : action) : bool :=
  match a with SendCard _ _ _ => true | _ => false end.

(** The number of (recipient, channel) pairs. *)
Definition channel_count (data_ : list (Recipient * list (string * Integration))) : nat :=
  list_sum (map (fun entry => List.length (snd entry)) data_).

End MSTeamsNotifications.

(** ** Concrete inputs for the further properties *)

(** A sample with a rate that [float] rejects. *)
Definition bad_rate_rows : list row :=
  map (root_row "6503ee33b7bc43aead1facaa625a5dba") [PyStr "0.1"; PyStr "n/a"].

Definition bad_rate_env : environment := scenario_env bad_rate_rows [].

(** A sample that mixes a string rate with a numeric one. *)
Definition mixed_rate_rows : list row :=
  map (root_row "6503ee33b7bc43aead1facaa625a5dba") [PyStr "0.1"; PyFloat 0.2].

Definition mixed_rate_env : environment := scenario_env mixed_rate_rows [].


(** A Teams workspace with one member, whose client always answers. *)
Definition teams_services : MSTeamsNotifications.services :=
  {| MSTeamsNotifications.get_integrations_by_channel_by_recipient :=
       fun _ recipients =>
         map (fun r => (r, [("19:channel", {| MSTeamsNotifications.integration_id := 3;
                                              MSTeamsNotifications.external_id := "team" |})]))
             recipients;
     MSTeamsNotifications.get_context := fun _ _ shared _ => shared;
     MSTeamsNotifications.build_card :=
       fun _ context _ =>
         inr (MSTeams.card [MSTeams.get_text_block "New comment" (Some MSTeams.LARGE)]);
     MSTeamsNotifications.get_member_list :=
       fun _ _ => inr [("members",
                        MSTeams.VList [MSTeams.VDict [("tenantId", MSTeams.VStr "tenant-1")]])];
     MSTeamsNotifications.get_user_conversation_id := fun _ user_id _ => inr ("conv:" ++ user_id)%string;
     MSTeamsNotifications.send_card := fun _ _ _ => inr tt |}.

Definition note_notification : MSTeamsNotifications.Notification :=
  {| MSTeamsNotifications.classes :=
       ["NoteActivityNotification"; "GroupActivityNotification"; "ActivityNotification";
        "ProjectNotification"; "BaseNotification"; "object"];
     MSTeamsNotifications.organization := 7;
     MSTeamsNotifications.notification_str := "NoteActivityNotification" |}.

Definition digest_notification : MSTeamsNotifications.Notification :=
  {| MSTeamsNotifications.classes := ["DigestNotification"; "ProjectNotification";
                                      "BaseNotification"; "object"];
     MSTeamsNotifications.organization := 7;
     MSTeamsNotifications.notification_str := "DigestNotification" |}.

Definition teams_recipients : list MSTeamsNotifications.Recipient :=
  [{| MSTeamsNotifications.recipient_id := 1; MSTeamsNotifications.recipient_name := "ada" |};
   {| MSTeamsNotifications.recipient_id := 2; MSTeamsNotifications.recipient_name := "bob" |}].

Definition teams_integration : MSTeamsNotifications.Integration :=
  {| MSTeamsNotifications.integration_id := 3; MSTeamsNotifications.external_id := "team" |}.

(** * Properties *)

(** A query carrying the breakdown referrer is never the first one of a
    log that starts with the root-transaction query. *)
Ltac not_breakdown :=
  match goal with
  | H1 : referrer ?q = root_referrer, H2 : referrer ?q = breakdown_referrer |- _ =>
      rewrite H1 in H2; discriminate H2
  end.

Ltac pick_query :=
  repeat match goal with
         | H : In _ [] |- _ => destruct H
         | H : In _ (_ :: _) |- _ => destruct H as [->|H]
         end.

(** ** Arithmetic of the percentile index *)

Lemma is_integer_spec (x : Q) :
  is_integer x = true <-> exists k : Z, (x == inject_Z k)%Q.
Proof.
  destruct x as [a b]. unfold is_integer, Qeq. cbn [Qnum Qden inject_Z].
  rewrite Z.eqb_eq. split.
  - intros H. exists (a / Zpos b).
    rewrite Z.mul_1_r.
    pose proof (Z.div_mod a (Zpos b) ltac:(lia)). lia.
  - intros [k Hk]. rewrite Z.mul_1_r in Hk. subst a.
    apply Z.mod_mul. lia.
Qed.

Lemma py_int_integer (x : Q) (k : Z) : (x == inject_Z k)%Q -> py_int x = k.
Proof.
  destruct x as [a b]. unfold py_int, Qeq. cbn [Qnum Qden inject_Z].
  rewrite Z.mul_1_r. intros ->. apply Z.quot_mul. lia.
Qed.

Lemma index_bounds (n : Z) (p : Q) :
  0 < n -> (0 <= p)%Q -> (p < 1)%Q ->
  (0 <= inject_Z n * p)%Q /\ (inject_Z n * p < inject_Z n)%Q.
Proof.
  intros Hn H0 H1.
  assert (Hq : (0 < inject_Z n)%Q) by (rewrite (Zlt_Qlt 0 n) in Hn; exact Hn).
  split.
  - apply Qmult_le_0_compat; [apply Qlt_le_weak; exact Hq|exact H0].
  - rewrite <- (Qmult_1_r (inject_Z n)) at 2.
    apply Qmult_lt_l; assumption.
Qed.

Lemma integer_index_in_range (n k : Z) (idx : Q) :
  (0 <= idx)%Q -> (idx < inject_Z n)%Q -> (idx == inject_Z k)%Q -> 0 <= k < n.
Proof.
  intros H0 H1 Hk. rewrite Hk in H0, H1.
  split.
  - rewrite Zle_Qle. exact H0.
  - rewrite Zlt_Qlt. exact H1.
Qed.

Lemma ceil_index_in_range (n : Z) (idx : Q) :
  (0 <= idx)%Q -> (idx < inject_Z n)%Q -> is_integer idx = false ->
  0 <= ceil idx - 1 < n.
Proof.
  intros H0 H1 Hni. unfold ceil.
  pose proof (Qle_ceiling idx) as Hc.
  pose proof (Qceiling_lt idx) as Hl.
  split.
  - assert (Hpos : (0 < idx)%Q).
    { apply Qle_lteq in H0. destruct H0 as [H0|H0]; [exact H0|].
      exfalso. enough (is_integer idx = true) by congruence.
      apply is_integer_spec. exists 0. symmetry. exact H0. }
    assert (0 < Qceiling idx); [|lia].
    rewrite Zlt_Qlt. eapply Qlt_le_trans; eassumption.
  - rewrite Zlt_Qlt. eapply Qlt_trans; eassumption.
Qed.

Lemma getitem_in_range {A : Type} (data : list A) (i : Z) :
  0 <= i < len data ->
  exists v, getitem data i = Ok v /\ nth_error data (Z.to_nat i) = Some v.
Proof.
  intros [H0 H1]. unfold getitem.
  assert (E0 : (i <? 0) = false) by (apply Z.ltb_ge; lia).
  cbv zeta. rewrite E0. cbv iota. rewrite E0.
  destruct (nth_error data (Z.to_nat i)) as [v|] eqn:E.
  - exists v. split; reflexivity.
  - apply nth_error_None in E. unfold len in H1. lia.
Qed.

Lemma len_nonempty {A : Type} (data : list A) : data <> [] -> 0 < len data.
Proof. destruct data; [congruence|]. intros _. unfold len. cbn. lia. Qed.

(** What [percentile_fn] returns for a percentile in [[0, 1)]. *)
Lemma percentile_fn_value (data : list Q) (p : Q) :
  data <> [] -> (0 <= p)%Q -> (p < 1)%Q ->
  let idx := (inject_Z (len data) * p)%Q in
  let i := rank_index (len data) p in
  0 <= i < len data /\
  exists v, percentile_fn data p = Ok (Some v) /\ nth_error data (Z.to_nat i) = Some v.
Proof.
  intros Hne H0 H1 idx i. unfold rank_index in i. fold idx in i.
  pose proof (len_nonempty data Hne) as Hn.
  destruct (index_bounds (len data) p Hn H0 H1) as [Hi0 Hi1].
  fold idx in Hi0, Hi1.
  assert (Hi : 0 <= i < len data).
  { subst i. destruct (is_integer idx) eqn:E.
    - apply is_integer_spec in E. destruct E as [k Hk].
      rewrite (py_int_integer idx k Hk).
      eapply integer_index_in_range; eassumption.
    - apply ceil_index_in_range; assumption. }
  split; [exact Hi|].
  destruct (getitem_in_range data i Hi) as [v [Hg Hv]].
  exists v. split; [|exact Hv].
  unfold percentile_fn.
  destruct (Z.eqb_spec (len data) 0) as [?|_]; [lia|].
  fold idx. subst i. destruct (is_integer idx); rewrite Hg; reflexivity.
Qed.

Lemma percentile_fn_member (data : list Q) (p : Q) :
  data <> [] -> (0 <= p)%Q -> (p < 1)%Q ->
  exists v, percentile_fn data p = Ok (Some v) /\ In v data.
Proof.
  intros Hne H0 H1.
  destruct (percentile_fn_value data p Hne H0 H1) as [_ [v [Hp Hv]]].
  exists v. split; [exact Hp|]. eapply nth_error_In. exact Hv.
Qed.

Lemma percentile_fn_empty (p : Q) : percentile_fn [] p = Ok None.
Proof. reflexivity. Qed.

(** ** Minimum, maximum and mean *)

Lemma Qltb_true (x y : Q) : Qltb x y = true <-> (x < y)%Q.
Proof.
  unfold Qltb. rewrite negb_true_iff. split.
  - intros H. apply Qnot_le_lt. intros Hle.
    apply Qle_bool_iff in Hle. congruence.
  - intros H. destruct (Qle_bool y x) eqn:E; [|reflexivity].
    apply Qle_bool_iff in E. exfalso. eapply Qlt_not_le; eassumption.
Qed.

Lemma Qltb_false (x y : Q) : Qltb x y = false <-> (y <= x)%Q.
Proof.
  unfold Qltb. rewrite negb_false_iff. apply Qle_bool_iff.
Qed.

Lemma fold_min_le (l : list Q) (x : Q) :
  let m := fold_left (fun best item => if Qltb item best then item else best) l x in
  (m <= x)%Q /\ forall y, In y l -> (m <= y)%Q.
Proof.
  revert x. induction l as [|a l IH]; intros x; cbn.
  - split; [apply Qle_refl|intros y []].
  - destruct (Qltb a x) eqn:E.
    + apply Qltb_true in E. destruct (IH a) as [Ha Hl].
      split.
      * eapply Qle_trans; [exact Ha|apply Qlt_le_weak; exact E].
      * intros y [<-|Hy]; [exact Ha|apply Hl; exact Hy].
    + apply Qltb_false in E. destruct (IH x) as [Hx Hl].
      split; [exact Hx|].
      intros y [<-|Hy]; [eapply Qle_trans; eassumption|apply Hl; exact Hy].
Qed.

Lemma fold_max_ge (l : list Q) (x : Q) :
  let m := fold_left (fun best item => if Qltb best item then item else best) l x in
  (x <= m)%Q /\ forall y, In y l -> (y <= m)%Q.
Proof.
  revert x. induction l as [|a l IH]; intros x; cbn.
  - split; [apply Qle_refl|intros y []].
  - destruct (Qltb x a) eqn:E.
    + apply Qltb_true in E. destruct (IH a) as [Ha Hl].
      split.
      * eapply Qle_trans; [apply Qlt_le_weak; exact E|exact Ha].
      * intros y [<-|Hy]; [exact Ha|apply Hl; exact Hy].
    + apply Qltb_false in E. destruct (IH x) as [Hx Hl].
      split; [exact Hx|].
      intros y [<-|Hy]; [eapply Qle_trans; eassumption|apply Hl; exact Hy].
Qed.

Lemma py_min_le (lst : list Q) (m y : Q) :
  py_min lst = Some m -> In y lst -> (m <= y)%Q.
Proof.
  destruct lst as [|x l]; [discriminate|]. cbn [py_min]. intros [= <-].
  destruct (fold_min_le l x) as [Hx Hl].
  intros [<-|Hy]; [exact Hx|apply Hl; exact Hy].
Qed.

Lemma py_max_ge (lst : list Q) (m y : Q) :
  py_max lst = Some m -> In y lst -> (y <= m)%Q.
Proof.
  destruct lst as [|x l]; [discriminate|]. cbn [py_max]. intros [= <-].
  destruct (fold_max_ge l x) as [Hx Hl].
  intros [<-|Hy]; [exact Hx|apply Hl; exact Hy].
Qed.

Lemma mean_fn_nonempty (lst : list Q) :
  lst <> [] -> mean_fn lst = Ok (Some (py_sum lst / inject_Z (len lst))%Q).
Proof.
  intros Hne. pose proof (len_nonempty lst Hne) as Hn.
  unfold mean_fn, truediv.
  destruct (Z.ltb_spec 0 (len lst)) as [_|?]; [|lia].
  destruct (Qeq_bool (inject_Z (len lst)) 0) eqn:E; [|reflexivity].
  apply Qeq_bool_iff in E. unfold Qeq in E. cbn in E. lia.
Qed.

(** On a non-empty list every field of the summary is present, and the
    percentile fields are items of the list. *)
Lemma get_sample_rates_data_nonempty (data : list Q) :
  data <> [] ->
  exists mn mx p50 p90 p95 p99,
    _get_sample_rates_data data =
      Ok (mk_distributions (Some mn) (Some mx)
            (Some (py_sum data / inject_Z (len data))%Q)
            (Some p50) (Some p90) (Some p95) (Some p99))
    /\ py_min data = Some mn /\ py_max data = Some mx
    /\ In p50 data /\ In p90 data /\ In p95 data /\ In p99 data.
Proof.
  intros Hne. unfold _get_sample_rates_data.
  rewrite (mean_fn_nonempty data Hne). cbn [bind].
  destruct (percentile_fn_member data 0.5 Hne) as [p50 [E50 I50]]; [easy|easy|].
  destruct (percentile_fn_member data 0.9 Hne) as [p90 [E90 I90]]; [easy|easy|].
  destruct (percentile_fn_member data 0.95 Hne) as [p95 [E95 I95]]; [easy|easy|].
  destruct (percentile_fn_member data 0.99 Hne) as [p99 [E99 I99]]; [easy|easy|].
  rewrite E50, E90, E95, E99. cbn [bind].
  destruct data as [|x l]; [congruence|].
  eexists _, _, p50, p90, p95, p99.
  repeat split; try assumption; reflexivity.
Qed.

Lemma get_sample_rates_data_total (data : list Q) :
  exists d, _get_sample_rates_data data = Ok d.
Proof.
  destruct data as [|x l].
  - eexists. reflexivity.
  - destruct (get_sample_rates_data_nonempty (x :: l)) as (mn & mx & a & b & c & d & E & _);
      [discriminate|].
    eexists. exact E.
Qed.

(** ** [sorted] *)

Section SortedFacts.
Context {A : Type} (lt : A -> A -> result bool).

Lemma insert_perm (x : A) (l r : list A) :
  insert lt x l = Ok r -> Permutation (x :: l) r.
Proof.
  revert r. induction l as [|y l IH]; intros r; cbn.
  - intros [= <-]. apply Permutation_refl.
  - destruct (lt y x) as [[|]|e]; cbn; [|intros [= <-]; apply Permutation_refl|discriminate].
    destruct (insert lt x l) as [r'|e]; cbn; [|discriminate].
    intros [= <-]. eapply Permutation_trans; [apply perm_swap|].
    apply perm_skip. apply IH. reflexivity.
Qed.

Lemma sorted_perm (l s : list A) : sorted lt l = Ok s -> Permutation l s.
Proof.
  revert s. induction l as [|x l IH]; intros s; cbn.
  - intros [= <-]. apply perm_nil.
  - destruct (sorted lt l) as [s'|e]; cbn; [|discriminate].
    intros H. apply insert_perm in H.
    eapply Permutation_trans; [apply perm_skip; apply IH; reflexivity|exact H].
Qed.

Lemma sorted_length (l s : list A) : sorted lt l = Ok s -> len s = len l.
Proof.
  intros H. apply sorted_perm in H. unfold len.
  rewrite (Permutation_length H). reflexivity.
Qed.
End SortedFacts.

Lemma float_insert_sorted (x : Q) (l : list Q) :
  Sorted Qle l ->
  exists r, insert float_lt x l = Ok r /\ Sorted Qle r /\
            forall y, HdRel Qle y l -> (y <= x)%Q -> HdRel Qle y r.
Proof.
  induction l as [|a l IH]; intros Hs; cbn.
  - exists [x]. repeat split; auto.
  - apply Sorted_inv in Hs. destruct Hs as [Hs Hhd].
    destruct (Qltb a x) eqn:E.
    + apply Qltb_true in E. destruct (IH Hs) as (r & -> & Hr & Hrel). cbn.
      exists (a :: r). repeat split.
      * constructor; [exact Hr|]. apply Hrel; [exact Hhd|apply Qlt_le_weak; exact E].
      * intros y Hy _. apply HdRel_inv in Hy. constructor. exact Hy.
    + apply Qltb_false in E.
      exists (x :: a :: l). repeat split.
      * constructor; [constructor; assumption|constructor; exact E].
      * intros y _ Hy. constructor. exact Hy.
Qed.

(** On floats [sorted] never raises and returns an ascending permutation. *)
Lemma float_sorted_total (l : list Q) :
  exists s, sorted float_lt l = Ok s /\ Sorted Qle s /\ Permutation l s.
Proof.
  induction l as [|x l IH]; cbn.
  - exists []. repeat split; constructor.
  - destruct IH as (s & E & Hs & Hp). rewrite E. cbn.
    destruct (float_insert_sorted x s Hs) as (r & Er & Hr & _).
    exists r. repeat split; [exact Er|exact Hr|].
    eapply Permutation_trans; [apply perm_skip; exact Hp|].
    eapply insert_perm. exact Er.
Qed.

(** An ascending list is returned as it is. *)
Lemma float_sorted_ascending (l : list Q) :
  Sorted Qle l -> sorted float_lt l = Ok l.
Proof.
  induction l as [|x l IH]; intros Hs; [reflexivity|].
  apply Sorted_inv in Hs. destruct Hs as [Hs Hhd].
  cbn. rewrite (IH Hs). cbn.
  destruct Hhd as [|y l' Hxy]; [reflexivity|].
  cbn. apply Qltb_false in Hxy. rewrite Hxy. reflexivity.
Qed.

Lemma mapM_length {A B : Type} (f : A -> result B) (l : list A) (r : list B) :
  mapM f l = Ok r -> len r = len l.
Proof.
  revert r. induction l as [|x l IH]; intros r; cbn.
  - intros [= <-]. reflexivity.
  - destruct (f x) as [y|e]; cbn; [|discriminate].
    destruct (mapM f l) as [ys|e]; cbn; [|discriminate].
    intros [= <-]. specialize (IH ys eq_refl). unfold len in *. cbn. lia.
Qed.

Lemma filter_len_le {A : Type} (f : A -> bool) (l : list A) : len (filter f l) <= len l.
Proof.
  unfold len. induction l as [|x l IH]; cbn; [lia|].
  destruct (f x); cbn; lia.
Qed.

(** Comparisons raise nothing but [TypeError]. *)
Lemma py_lt_raises (a b : pyval) (e : exn) : py_lt a b = Raise e -> e = TypeError.
Proof. destruct a, b; cbn; congruence. Qed.

Lemma py_insert_raises (x : pyval) (l : list pyval) (e : exn) :
  insert py_lt x l = Raise e -> e = TypeError.
Proof.
  induction l as [|y l IH]; cbn; [discriminate|].
  destruct (py_lt y x) as [[|]|e'] eqn:E; cbn.
  - destruct (insert py_lt x l) as [r|e']; cbn; [discriminate|].
    intros [= <-]. apply IH. reflexivity.
  - discriminate.
  - intros [= <-]. eapply py_lt_raises. exact E.
Qed.

Lemma py_sorted_raises (l : list pyval) (e : exn) :
  sorted py_lt l = Raise e -> e = TypeError.
Proof.
  induction l as [|x l IH]; cbn; [discriminate|].
  destruct (sorted py_lt l) as [s|e']; cbn.
  - apply py_insert_raises.
  - intros [= <-]. apply IH. reflexivity.
Qed.

(** ** The handler *)

Lemma truediv_nonzero (a : Q) (n : Z) :
  0 < n -> truediv a (inject_Z n) = Ok (a / inject_Z n)%Q.
Proof.
  intros Hn. unfold truediv.
  destruct (Qeq_bool (inject_Z n) 0) eqn:E; [|reflexivity].
  apply Qeq_bool_iff in E. unfold Qeq in E. cbn in E. lia.
Qed.

Lemma hbind_lift_ok {A B : Type} (a : A) (k : A -> handler B) (log : list QueryArgs) :
  hbind (lift (Ok a)) k log = k a log.
Proof. reflexivity. Qed.

Lemma hbind_lift_raise {A B : Type} (e : exn) (k : A -> handler B) (log : list QueryArgs) :
  hbind (lift (Raise e)) k log = (Raise e, log).
Proof. reflexivity. Qed.

Lemma hbind_run_query {B : Type} (env : environment) (q : QueryArgs)
    (k : list row -> handler B) (log : list QueryArgs) :
  hbind (run_query env q) k log =
  match discover_query env q with
  | Ok rows => k rows (log ++ [q])
  | Raise e => (Raise e, log ++ [q])
  end.
Proof. unfold hbind, run_query. destruct (discover_query env q); reflexivity. Qed.

(** The last step of [get]: assembling the report never raises. *)
Lemma respond_ok (n : Z) (rates : list Q) (breakdown : option (list row))
    (log : list QueryArgs) :
  0 < n ->
  exists dists,
    _get_sample_rates_data rates = Ok dists /\
    hbind (lift (truediv (inject_Z (n - len rates)) (inject_Z n)))
      (fun ratio =>
         hbind (lift (_get_sample_rates_data rates))
           (fun dists =>
              ret {| data := Report {| project_breakdown := breakdown;
                                       sample_size := n;
                                       null_sample_rate_percentage := Some (ratio * 100)%Q;
                                       sample_rate_distributions := Some dists |};
                     status := HTTP_200_OK |})) log
    = (Ok (full_report breakdown n rates dists), log).
Proof.
  intros Hn. destruct (get_sample_rates_data_total rates) as [dists E].
  exists dists. split; [exact E|].
  rewrite (truediv_nonzero _ n Hn), hbind_lift_ok, E, hbind_lift_ok.
  reflexivity.
Qed.

Lemma get_outcome (env : environment) (request : Request) (project : Project)
    (res : result Response) (log : list QueryArgs) :
  get env request project [] = (res, log) -> outcome env res log.
Proof.
  unfold get.
  destruct (negb _); [intros [= <- <-]; apply out_disabled|].
  destruct (requested_sample_size env request) as [n|e];
    [rewrite hbind_lift_ok|rewrite hbind_lift_raise; intros [= <- <-]; apply out_bad_request].
  destruct (stats_period env request) as [period|e];
    [rewrite hbind_lift_ok|rewrite hbind_lift_raise; intros [= <- <-]; apply out_bad_request].
  cbv zeta.
  set (q1 := root_transactions_query _ _ _ _ _).
  assert (R1 : referrer q1 = root_referrer) by reflexivity.
  rewrite hbind_run_query. cbn [app].
  destruct (discover_query env q1) as [rows|e] eqn:Eq1;
    [|intros [= <- <-]; apply out_root_failed; assumption].
  set (all_rates := map _ rows).
  destruct (sorted py_lt all_rates) as [sample_rates|e] eqn:Es.
  2:{ rewrite hbind_lift_raise. intros [= <- <-].
      apply (out_bad_rows env q1 rows); try assumption.
      intros ->. discriminate Es. }
  rewrite hbind_lift_ok.
  assert (Hlen : len sample_rates = len rows).
  { rewrite (sorted_length _ _ _ Es). unfold all_rates, len. rewrite length_map. reflexivity. }
  destruct (Z.eqb_spec (len sample_rates) 0) as [E0|E0].
  { intros [= <- <-]. destruct rows; [|unfold len in *; cbn in *; lia].
    apply out_empty; assumption. }
  assert (Hne : rows <> []).
  { intros ->. apply E0. rewrite Hlen. reflexivity. }
  assert (Hpos : 0 < len rows) by (apply len_nonempty; exact Hne).
  destruct (mapM _ _) as [floats|e] eqn:Ef.
  2:{ rewrite hbind_lift_raise. intros [= <- <-].
      apply (out_bad_rows env q1 rows); assumption. }
  rewrite hbind_lift_ok.
  destruct (float_sorted_total floats) as (rates & Er & Hsorted & Hperm).
  rewrite Er, hbind_lift_ok.
  assert (Hrates : len rates <= len rows).
  { rewrite (sorted_length _ _ _ Er), (mapM_length _ _ _ Ef), <- Hlen.
    apply filter_len_le. }
  destruct (String.eqb _ "1").
  - destruct (join_comma _) as [trace_id_list|e].
    2:{ rewrite hbind_lift_raise. intros [= <- <-].
        apply (out_bad_rows env q1 rows); assumption. }
    rewrite hbind_lift_ok.
    set (q2 := project_breakdown_query _ _ _ _ _).
    assert (R2 : referrer q2 = breakdown_referrer) by reflexivity.
    rewrite hbind_run_query. cbn [app].
    destruct (discover_query env q2) as [breakdown|e] eqn:Eq2;
      [|intros [= <- <-]; apply (out_breakdown_failed env q1 q2 rows); assumption].
    destruct (Z.ltb_spec 10 (len breakdown)) as [Hb|Hb].
    + intros [= <- <-]. apply (out_too_many env q1 q2 rows breakdown); assumption.
    + destruct (respond_ok (len rows) rates (Some breakdown) [q1; q2] Hpos) as (dists & Ed & ->).
      intros [= <- <-].
      apply (out_report_breakdown env q1 q2 rows breakdown rates dists); assumption.
  - destruct (respond_ok (len rows) rates None [q1] Hpos) as (dists & Ed & ->).
    intros [= <- <-].
    apply (out_report_single env q1 rows rates dists); assumption.
Qed.

Lemma referrers_differ : root_referrer <> breakdown_referrer.
Proof. discriminate. Qed.

Lemma null_percentage_bounds (n k : Z) :
  0 < n -> 0 <= k <= n ->
  (0 <= inject_Z (n - k) / inject_Z n * 100)%Q /\
  (inject_Z (n - k) / inject_Z n * 100 <= 100)%Q.
Proof.
  intros Hn Hk.
  assert (Hb : (0 < inject_Z n)%Q) by (rewrite (Zlt_Qlt 0 n) in Hn; exact Hn).
  assert (Ha0 : (0 <= inject_Z (n - k))%Q).
  { assert (H : 0 <= n - k) by lia. rewrite Zle_Qle in H. exact H. }
  assert (Hab : (inject_Z (n - k) <= inject_Z n)%Q) by (rewrite <- Zle_Qle; lia).
  assert (H0 : (0 <= inject_Z (n - k) / inject_Z n)%Q).
  { apply Qle_shift_div_l; [exact Hb|]. rewrite Qmult_0_l. exact Ha0. }
  assert (H1 : (inject_Z (n - k) / inject_Z n <= 1)%Q).
  { apply Qle_shift_div_r; [exact Hb|]. rewrite Qmult_1_l. exact Hab. }
  split.
  - apply Qmult_le_0_compat; [exact H0|discriminate].
  - setoid_replace 100%Q with (1 * 100)%Q at 2 by reflexivity.
    apply Qmult_le_compat_r; [exact H1|discriminate].
Qed.

Lemma len_nonneg {A : Type} (l : list A) : 0 <= len l.
Proof. unfold len. lia. Qed.

(** * The claims *)

(** ** Percentiles *)




(** C9, as stated, fails on its first entry: [4 * 0.25] is the exact
    integer [1], so the rule returns the item at position 1, which is 20. *)
Lemma percentile_reference_table_first_entry :
  exists v, percentile_fn [10; 20; 30; 40]%Q 0.25 = Ok (Some v) /\ ~ (v == 10)%Q.
Proof. exists 20%Q. split; [reflexivity|discriminate]. Qed.

(** C9 (amended): [percentile([10,20,30,40], 0.25) == 20] and
    [percentile([10,20,30,40], 0.9) == 40]. *)
Theorem percentile_reference_table :
  percentile_fn [10; 20; 30; 40]%Q 0.25 = Ok (Some 20%Q) /\
  percentile_fn [10; 20; 30; 40]%Q 0.9 = Ok (Some 40%Q).
Proof. split; reflexivity. Qed.

(** ** The distribution summary *)

(** C8: summarizing the empty sequence returns (it raises nothing, the
    division of the mean being guarded by the length test) a record whose
    seven fields are all absent. *)
Theorem get_sample_rates_data_empty :
  _get_sample_rates_data [] =
  Ok {| d_min := None; d_max := None; d_mean := None;
        d_p50 := None; d_p90 := None; d_p95 := None; d_p99 := None |}.
Proof. reflexivity. Qed.

(** C7: for every non-empty sequence of values the summary is produced,
    its [min], [p50] and [max] fields are present and [min <= p50 <= max]. *)
Theorem summary_min_p50_max (values : list Q) :
  values <> [] ->
  exists d mn md mx,
    _get_sample_rates_data values = Ok d /\
    d_min d = Some mn /\ d_p50 d = Some md /\ d_max d = Some mx /\
    (mn <= md)%Q /\ (md <= mx)%Q.
Proof.
  intros Hne.
  destruct (get_sample_rates_data_nonempty values Hne)
    as (mn & mx & p50 & p90 & p95 & p99 & E & Hmin & Hmax & I50 & _).
  eexists _, mn, p50, mx. split; [exact E|]. cbn.
  repeat split.
  - eapply py_min_le; eassumption.
  - eapply py_max_ge; eassumption.
Qed.

Lemma summary_min_p50_max_witness :
  exists d mn md mx,
    _get_sample_rates_data [3; 1; 2]%Q = Ok d /\
    d_min d = Some mn /\ d_p50 d = Some md /\ d_max d = Some mx /\
    (mn <= md)%Q /\ (md <= mx)%Q.
Proof. apply (summary_min_p50_max [3; 1; 2]%Q). discriminate. Defined.




(** ** The handler *)

(** C3: when the root-transaction query returns zero rows, the handler
    returns a successful response whose report has [sample_size = 0] and
    no [null_sample_rate_percentage], [sample_rate_distributions] or
    [project_breakdown]; the only query issued is the root-transaction
    query, whatever the [distributedTrace] parameter says. *)
Theorem empty_sample_report (env : environment) (request : Request) (project : Project)
    (n period : Z) :
  features_has env "organizations:filters-and-sampling"
    (organization project) (user request) = true ->
  requested_sample_size env request = Ok n ->
  stats_period env request = Ok period ->
  let root_query :=
    root_transactions_query project (GET_get_default request "query" "")
      (timezone_now env - period) (timezone_now env) n in
  discover_query env root_query = Ok [] ->
  get env request project [] =
  (Ok {| data := Report {| project_breakdown := None;
                           sample_size := 0;
                           null_sample_rate_percentage := None;
                           sample_rate_distributions := None |};
         status := 200 |},
   [root_query]).
Proof.
  intros Hf Hn Hp root_query Hq. unfold get.
  rewrite Hf. cbn [negb].
  rewrite Hn, hbind_lift_ok, Hp, hbind_lift_ok. cbv zeta.
  rewrite hbind_run_query. fold root_query. rewrite Hq.
  reflexivity.
Qed.

Lemma empty_sample_report_witness :
  exists q,
    get (scenario_env [] [[("project", PyStr "bar"); ("count()", PyInt 3)]])
        (scenario_request "1") scenario_project [] =
    (Ok {| data := Report {| project_breakdown := None;
                             sample_size := 0;
                             null_sample_rate_percentage := None;
                             sample_rate_distributions := None |};
           status := 200 |},
     [q]) /\ referrer q = root_referrer.
Proof.
  eexists. split.
  - apply (empty_sample_report
             (scenario_env [] [[("project", PyStr "bar"); ("count()", PyInt 3)]])
             (scenario_request "1") scenario_project 100 3600);
      reflexivity.
  - reflexivity.
Defined.

(** C2: once the breakdown query has been issued and has answered with
    [breakdown] (one row per project), the handler answers with the
    eligibility rejection if and only if [breakdown] has more than 10 rows.
    With 10 rows or fewer the response is a report whose
    [project_breakdown] is [breakdown] itself, nothing dropped; with more
    than 10 the response carries no report at all. *)
Theorem breakdown_eligibility (env : environment) (request : Request) (project : Project)
    (res : result Response) (log : list QueryArgs)
    (q2 : QueryArgs) (breakdown : list row) :
  get env request project [] = (res, log) ->
  In q2 log -> referrer q2 = breakdown_referrer ->
  discover_query env q2 = Ok breakdown ->
  (res = Ok too_many_projects_response <-> 10 < len breakdown) /\
  (len breakdown <= 10 ->
     exists r, res = Ok {| data := Report r; status := 200 |} /\
               project_breakdown r = Some breakdown) /\
  (10 < len breakdown ->
     status too_many_projects_response = 400 /\
     forall r st, res <> Ok {| data := Report r; status := st |}).
Proof.
  intros Hget Hin Href Hq.
  apply get_outcome in Hget.
  destruct Hget; pick_query; try not_breakdown; try congruence;
    match goal with
    | H : discover_query _ q2 = Ok ?b |- _ =>
        assert (b = breakdown) by congruence; subst b
    end.
  - (* more than 10 rows *)
    split; [split; [intros _; assumption|reflexivity]|].
    split; [intros ?; lia|].
    intros _. split; [reflexivity|]. intros r st. discriminate.
  - (* 10 rows or fewer *)
    split; [split; [discriminate|intros ?; lia]|].
    split; [|intros ?; lia].
    intros _. eexists. split; reflexivity.
Qed.

Lemma breakdown_eligibility_witness :
  fst (get (fan_out_env 11) (scenario_request "1") scenario_project [])
    = Ok too_many_projects_response
  <-> 10 < len (map breakdown_row (seq 1 11)).
Proof.
  apply (proj1 (breakdown_eligibility (fan_out_env 11) (scenario_request "1")
                  scenario_project
                  (fst (get (fan_out_env 11) (scenario_request "1") scenario_project []))
                  (snd (get (fan_out_env 11) (scenario_request "1") scenario_project []))
                  fan_out_breakdown_query (map breakdown_row (seq 1 11))
                  ltac:(reflexivity) ltac:(right; left; reflexivity)
                  ltac:(reflexivity) ltac:(reflexivity))).
Defined.

(** C4: in every report the handler returns, [null_sample_rate_percentage]
    and [sample_rate_distributions] are present together or absent
    together, they are present exactly when [sample_size > 0], and a
    present [null_sample_rate_percentage] lies in [[0, 100]]. *)
Theorem report_fields_defined_together (env : environment) (request : Request)
    (project : Project) (r : report) (st : Z) (log : list QueryArgs) :
  get env request project [] = (Ok {| data := Report r; status := st |}, log) ->
  (null_sample_rate_percentage r <> None <-> sample_rate_distributions r <> None) /\
  (null_sample_rate_percentage r <> None <-> 0 < sample_size r) /\
  (forall pct, null_sample_rate_percentage r = Some pct ->
               (0 <= pct)%Q /\ (pct <= 100)%Q).
Proof.
  intros Hget. apply get_outcome in Hget.
  inversion Hget; subst; cbn.
  - (* empty sample *)
    split; [split; congruence|].
    split; [split; [congruence|lia]|].
    discriminate.
  - (* report with a breakdown *)
    pose proof (len_nonempty rows ltac:(assumption)) as Hpos.
    split; [split; congruence|].
    split; [split; [intros _; exact Hpos|congruence]|].
    intros pct [= <-].
    apply null_percentage_bounds; [exact Hpos|].
    split; [apply len_nonneg|assumption].
  - (* report without a breakdown *)
    pose proof (len_nonempty rows ltac:(assumption)) as Hpos.
    split; [split; congruence|].
    split; [split; [intros _; exact Hpos|congruence]|].
    intros pct [= <-].
    apply null_percentage_bounds; [exact Hpos|].
    split; [apply len_nonneg|assumption].
Qed.

Lemma scenario_b_run :
  get scenario_b_env (scenario_request "0") scenario_project [] =
  (Ok {| data := Report scenario_b_report; status := 200 |}, [scenario_b_root_query]).
Proof. vm_compute. reflexivity. Qed.

Lemma report_fields_defined_together_witness :
  (0 <= inject_Z (5 - 3) / inject_Z 5 * 100)%Q /\
  (inject_Z (5 - 3) / inject_Z 5 * 100 <= 100)%Q.
Proof.
  apply (proj2 (proj2 (report_fields_defined_together scenario_b_env
                         (scenario_request "0") scenario_project
                         scenario_b_report 200 [scenario_b_root_query]
                         scenario_b_run))
               (inject_Z (5 - 3) / inject_Z 5 * 100)%Q eq_refl).
Defined.

(** C10, as stated, fails on the message: with 11 projects in the
    breakdown the handler answers with status 400, but the body is
    [{"details": "Way too many projects in the distributed trace's project
    breakdown"}], not the message of the claim. *)
Lemma eligibility_message_differs :
  fst (get (fan_out_env 11) (scenario_request "1") scenario_project []) =
    Ok {| data := Details "Way too many projects in the distributed trace's project breakdown";
          status := 400 |} /\
  fst (get (fan_out_env 11) (scenario_request "1") scenario_project []) <>
    Ok {| data := Details "too many projects in the distributed trace breakdown";
          status := 400 |}.
Proof. split; [reflexivity|vm_compute; discriminate]. Qed.

(** C10 (amended): when the eligibility cap is exceeded the handler answers
    with the client-error status 400 and the body [{"details": "Way too
    many projects in the distributed trace's project breakdown"}].  It is
    distinguishable from upstream failures: no other response of the
    handler has status 400, and a failure of the query service is not
    turned into a response, the exception it raised is propagated. *)
Theorem eligibility_failure_response (env : environment) (request : Request)
    (project : Project) (res : result Response) (log : list QueryArgs) :
  get env request project [] = (res, log) ->
  (forall q2 breakdown,
     In q2 log -> referrer q2 = breakdown_referrer ->
     discover_query env q2 = Ok breakdown -> 10 < len breakdown ->
     res = Ok {| data := Details "Way too many projects in the distributed trace's project breakdown";
                 status := 400 |}) /\
  (forall r, res = Ok r -> status r = 400 ->
     data r = Details "Way too many projects in the distributed trace's project breakdown" /\
     exists q2 breakdown,
       In q2 log /\ referrer q2 = breakdown_referrer /\
       discover_query env q2 = Ok breakdown /\ 10 < len breakdown) /\
  (forall q e, In q log -> discover_query env q = Raise e -> res = Raise e).
Proof.
  intros Hget. apply get_outcome in Hget.
  split; [|split].
  - intros q2 breakdown Hin Href Hq Hlen.
    destruct Hget; pick_query; try not_breakdown; try congruence.
    + reflexivity.
    + match goal with
      | H : discover_query _ q2 = Ok ?b |- _ =>
          assert (b = breakdown) by congruence; subst b
      end. lia.
  - intros r Hr Hst.
    destruct Hget; inversion Hr; subst r; try discriminate Hst.
    split; [reflexivity|].
    exists q2, breakdown. repeat split; try assumption. right. left. reflexivity.
  - intros q e Hin Hq.
    destruct Hget; pick_query; congruence.
Qed.

Lemma eligibility_failure_response_witness :
  fst (get (fan_out_env 11) (scenario_request "1") scenario_project []) =
  Ok {| data := Details "Way too many projects in the distributed trace's project breakdown";
        status := 400 |}.
Proof.
  apply (proj1 (eligibility_failure_response (fan_out_env 11) (scenario_request "1")
                  scenario_project
                  (fst (get (fan_out_env 11) (scenario_request "1") scenario_project []))
                  (snd (get (fan_out_env 11) (scenario_request "1") scenario_project []))
                  ltac:(reflexivity))
               fan_out_breakdown_query (map breakdown_row (seq 1 11))
               ltac:(right; left; reflexivity) ltac:(reflexivity)
               ltac:(reflexivity) ltac:(reflexivity)).
Defined.

(** C6: on the batch with client sample rates [[0.1, None, 0.2, 0.5, None]]
    in non-distributed mode the handler returns no report: sorting the
    rates compares [None] with a number and raises [TypeError] right after
    the root-transaction query. *)
Theorem scenario_b_with_none_raises :
  get scenario_b_none_env (scenario_request "0") scenario_project [] =
  (Raise TypeError, [scenario_b_root_query]).
Proof. reflexivity. Qed.

(** ** Binary64 arithmetic selects the same items *)

Lemma binary64_percentile_fn_at (data : list float) (p : float) (i : Z) :
  Binary64.rank_index (len data) p = Some i -> 0 <= i < len data ->
  Binary64.percentile_fn data p = Ok (nth_error data (Z.to_nat i)).
Proof.
  intros Hi Hr. unfold Binary64.percentile_fn, Binary64.rank_index in *.
  destruct (Z.eqb_spec (len data) 0) as [?|_]; [lia|].
  cbv zeta in *.
  destruct (getitem_in_range data i Hr) as (v & Hg & Hv). rewrite Hv.
  destruct (Binary64.is_integer _).
  - rewrite Hi. cbn. rewrite Hg. reflexivity.
  - destruct (Binary64.ceil _) as [c|]; [|discriminate].
    cbn in Hi. injection Hi as <-. cbn. rewrite Hg. reflexivity.
Qed.

Lemma positions_agree_upto_1000 :
  forallb (fun n => forallb (positions_agree (Z.of_nat n)) summary_percentiles)
          (seq 1 1000) = true.
Proof. vm_compute. reflexivity. Qed.

(** X1: for every list of 1 to 1000 binary64 numbers and each of the
    percentiles 0.5, 0.9, 0.95 and 0.99, [percentile_fn] computed with
    binary64 arithmetic returns the item at the position the rational
    model computes, and that position is in range. *)
Theorem binary64_percentile_positions (data : list float) (p : float) (q : Q) :
  (1 <= List.length data <= 1000)%nat -> In (p, q) summary_percentiles ->
  0 <= rank_index (len data) q < len data /\
  Binary64.percentile_fn data p = Ok (nth_error data (Z.to_nat (rank_index (len data) q))).
Proof.
  intros Hlen Hin.
  pose proof positions_agree_upto_1000 as H.
  rewrite forallb_forall in H.
  specialize (H (List.length data) ltac:(apply in_seq; lia)).
  rewrite forallb_forall in H. specialize (H (p, q) Hin).
  unfold positions_agree in H. cbn [fst snd] in H. fold (len data) in H.
  destruct (Binary64.rank_index (len data) p) as [i|] eqn:Ei; [|discriminate].
  apply andb_prop in H. destruct H as [H H2].
  apply andb_prop in H. destruct H as [H0 H1].
  apply Z.eqb_eq in H0. apply Z.leb_le in H1. apply Z.ltb_lt in H2.
  subst i. split; [lia|].
  apply binary64_percentile_fn_at; [exact Ei|lia].
Qed.

Lemma binary64_percentile_positions_witness :
  0 <= rank_index 3 0.9 < 3 /\
  Binary64.percentile_fn [0.1; 0.2; 0.5]%float 0.9%float =
  Ok (nth_error [0.1; 0.2; 0.5]%float (Z.to_nat (rank_index 3 0.9))).
Proof.
  apply (binary64_percentile_positions [0.1; 0.2; 0.5]%float 0.9%float 0.9%Q).
  - cbn. lia.
  - right. left. reflexivity.
Defined.

(** Scenario B in binary64 arithmetic: the null percentage of 2
    missing rates out of 5 is exactly [40.0], and the mean of
    [[0.1, 0.2, 0.5]] is [0.26666666666666666], within 0.0001 of 0.2667. *)
Theorem binary64_scenario_b :
  Binary64.null_sample_rate_percentage 5 3 = 40%float /\
  Binary64.mean [0.1; 0.2; 0.5]%float = 0.26666666666666666%float /\
  PrimFloat.ltb (PrimFloat.abs (PrimFloat.sub (Binary64.mean [0.1; 0.2; 0.5]%float)
                                              0.2667%float))
                0.0001%float = true.
Proof. repeat split; vm_compute; reflexivity. Qed.

(** ** Further properties *)

(** At [p = 1] the index is [len(data)], one past the last item, and
    [percentile_fn] raises [IndexError] on every non-empty list. *)
Theorem percentile_fn_one_raises (data : list Q) :
  data <> [] -> percentile_fn data 1 = Raise IndexError.
Proof.
  intros Hne. pose proof (len_nonempty data Hne) as Hn.
  unfold percentile_fn.
  destruct (Z.eqb_spec (len data) 0) as [?|_]; [lia|].
  cbv zeta.
  assert (Hk : (inject_Z (len data) * 1 == inject_Z (len data))%Q) by apply Qmult_1_r.
  assert (E : is_integer (inject_Z (len data) * 1) = true)
    by (apply is_integer_spec; eexists; exact Hk).
  rewrite E, (py_int_integer _ _ Hk).
  unfold getitem. cbv zeta.
  assert (E0 : (len data <? 0) = false) by (apply Z.ltb_ge; lia).
  rewrite E0. cbv iota. rewrite E0.
  assert (En : nth_error data (Z.to_nat (len data)) = None)
    by (apply nth_error_None; unfold len; lia).
  rewrite En. reflexivity.
Qed.

Lemma percentile_fn_one_raises_witness :
  percentile_fn [0.1; 0.2; 0.5]%Q 1 = Raise IndexError.
Proof. apply (percentile_fn_one_raises [0.1; 0.2; 0.5]%Q). discriminate. Defined.

Lemma py_lt_none_r (y : pyval) : py_lt y PyNone = Raise TypeError.
Proof. destruct y; reflexivity. Qed.

Lemma py_lt_none_l (x : pyval) : py_lt PyNone x = Raise TypeError.
Proof. reflexivity. Qed.

(** Sorting two or more values one of which is [None] raises [TypeError]. *)
Lemma sorted_with_none_raises (l : list pyval) :
  In PyNone l -> (2 <= List.length l)%nat -> sorted py_lt l = Raise TypeError.
Proof.
  induction l as [|x l IH]; intros Hin Hlen; [destruct Hin|].
  cbn [sorted]. destruct (sorted py_lt l) as [s|e] eqn:Es.
  - cbn [bind]. pose proof (sorted_perm _ _ _ Es) as Hp.
    destruct s as [|y s].
    { apply Permutation_sym, Permutation_nil in Hp. subst l. cbn in Hlen. lia. }
    cbn [insert].
    destruct Hin as [->|Hin]; [rewrite py_lt_none_r; reflexivity|].
    destruct l as [|a [|b l]].
    + destruct Hin.
    + destruct Hin as [->|[]].
      apply Permutation_length_1_inv in Hp. injection Hp as -> ->.
      rewrite py_lt_none_l. reflexivity.
    + discriminate IH; [exact Hin|cbn; lia].
  - cbn [bind]. rewrite (py_sorted_raises _ _ Es). reflexivity.
Qed.

(** X2: whenever the root-transaction query returns two or more rows one
    of which has no client sample rate ([None], or the key missing), the
    handler raises [TypeError] right after that query. *)
Theorem get_with_none_rate_raises (env : environment) (request : Request)
    (project : Project) (n period : Z) (rows : list row) (transaction : row) :
  features_has env "organizations:filters-and-sampling"
    (organization project) (user request) = true ->
  requested_sample_size env request = Ok n ->
  stats_period env request = Ok period ->
  let root_query :=
    root_transactions_query project (GET_get_default request "query" "")
      (timezone_now env - period) (timezone_now env) n in
  discover_query env root_query = Ok rows ->
  (2 <= List.length rows)%nat ->
  In transaction rows -> dict_get transaction "trace.client_sample_rate" = PyNone ->
  get env request project [] = (Raise TypeError, [root_query]).
Proof.
  intros Hf Hn Hp root_query Hq Hlen Hin Hnone. unfold get.
  rewrite Hf. cbn [negb].
  rewrite Hn, hbind_lift_ok, Hp, hbind_lift_ok. cbv zeta.
  rewrite hbind_run_query. fold root_query. rewrite Hq.
  rewrite sorted_with_none_raises.
  - reflexivity.
  - rewrite <- Hnone.
    apply (in_map (fun t => dict_get t "trace.client_sample_rate")). exact Hin.
  - rewrite length_map. exact Hlen.
Qed.

Lemma get_with_none_rate_raises_witness :
  get scenario_b_none_env (scenario_request "1") scenario_project [] =
  (Raise TypeError, [scenario_b_root_query]).
Proof.
  apply (get_with_none_rate_raises scenario_b_none_env (scenario_request "1")
           scenario_project 100 3600
           (map (root_row "6503ee33b7bc43aead1facaa625a5dba")
                [PyFloat 0.1; PyNone; PyFloat 0.2; PyFloat 0.5; PyNone])
           (root_row "6503ee33b7bc43aead1facaa625a5dba" PyNone)).
  - reflexivity.
  - reflexivity.
  - reflexivity.
  - reflexivity.
  - cbn. lia.
  - right. left. reflexivity.
  - reflexivity.
Defined.

(** Scenario B with the rates delivered as strings (the empty string
    for a missing rate), non-distributed mode: the handler returns
    [sample_size = 5], [null_sample_rate_percentage] equal to 40, and the
    distribution of [[0.1, 0.2, 0.5]] with [min = 0.1], [max = 0.5] and a
    mean equal to 4/15, within 0.0001 of 0.2667. *)
Theorem scenario_b_with_strings :
  exists pct d mean_,
    get scenario_b_env (scenario_request "0") scenario_project [] =
    (Ok {| data := Report {| project_breakdown := None;
                             sample_size := 5;
                             null_sample_rate_percentage := Some pct;
                             sample_rate_distributions := Some d |};
           status := 200 |},
     [scenario_b_root_query]) /\
    (pct == 40)%Q /\
    _get_sample_rates_data [0.1; 0.2; 0.5]%Q = Ok d /\
    d_min d = Some 0.1%Q /\ d_max d = Some 0.5%Q /\
    d_mean d = Some mean_ /\ (mean_ == 4 # 15)%Q /\
    (Qabs (mean_ - 0.2667) < 0.0001)%Q.
Proof.
  eexists _, _, _. split; [vm_compute; reflexivity|].
  repeat split.
Qed.

(** In every report of the handler the distribution is the summary
    of an ascending list of at most [sample_size] numbers: the handler
    sorts the numeric rates before it summarizes them. *)
Theorem handler_summarizes_ascending (env : environment) (request : Request)
    (project : Project) (r : report) (st : Z) (log : list QueryArgs)
    (d : distributions) :
  get env request project [] = (Ok {| data := Report r; status := st |}, log) ->
  sample_rate_distributions r = Some d ->
  exists rates,
    Sorted Qle rates /\ len rates <= sample_size r /\
    _get_sample_rates_data rates = Ok d /\
    null_sample_rate_percentage r =
      Some (inject_Z (sample_size r - len rates) / inject_Z (sample_size r) * 100)%Q.
Proof.
  intros Hget Hd. apply get_outcome in Hget.
  inversion Hget; subst; cbn in Hd; try discriminate Hd;
    injection Hd as <-; exists rates; repeat split; assumption.
Qed.

Lemma handler_summarizes_ascending_witness :
  exists rates,
    Sorted Qle rates /\ len rates <= sample_size scenario_b_report /\
    _get_sample_rates_data rates = Ok scenario_b_distributions /\
    null_sample_rate_percentage scenario_b_report =
      Some (inject_Z (sample_size scenario_b_report - len rates)
            / inject_Z (sample_size scenario_b_report) * 100)%Q.
Proof.
  apply (handler_summarizes_ascending scenario_b_env (scenario_request "0")
           scenario_project scenario_b_report 200 [scenario_b_root_query]
           scenario_b_distributions scenario_b_run eq_refl).
Defined.

(** * Further properties of the percentile and the summary *)

Lemma rank_index_floor (n : Z) (p : Q) :
  rank_index n p = Qfloor (inject_Z n * p).
Proof.
  unfold rank_index. cbv zeta.
  destruct (inject_Z n * p)%Q as [a b] eqn:E. clear E.
  unfold is_integer, py_int, ceil, Qceiling, Qfloor, Qopp. cbn [Qnum Qden].
  destruct (Z.eqb_spec (a mod Zpos b) 0) as [H|H].
  - apply Z.quot_div_exact; [lia|]. apply Z.mod_divide; [lia|]. exact H.
  - rewrite Z.div_opp_l_nz by lia. lia.
Qed.







Lemma percentile_fn_floor_item (data : list Q) (p : Q) :
  data <> [] -> (0 <= p)%Q -> (p < 1)%Q ->
  exists v,
    percentile_fn data p = Ok (Some v) /\
    0 <= Qfloor (inject_Z (len data) * p) < len data /\
    nth_error data (Z.to_nat (Qfloor (inject_Z (len data) * p))) = Some v.
Proof.
  intros Hne H0 H1.
  destruct (percentile_fn_value data p Hne H0 H1) as [Hi (v & Hp & Hv)].
  cbv zeta in Hi, Hv. rewrite rank_index_floor in Hi, Hv.
  exists v. repeat split; try assumption; lia.
Qed.





Lemma sorted_nth_le (l : list Q) (i j : nat) (a b : Q) :
  Sorted Qle l -> (i <= j)%nat ->
  nth_error l i = Some a -> nth_error l j = Some b -> (a <= b)%Q.
Proof.
  intros Hs. apply Sorted_StronglySorted in Hs; [|exact Qle_trans].
  revert i j. induction Hs as [|x l Hs IH Hall]; intros i j Hij Ha Hb.
  - destruct i; discriminate.
  - destruct i as [|i], j as [|j]; cbn in Ha, Hb.
    + injection Ha as <-. injection Hb as <-. apply Qle_refl.
    + injection Ha as <-. rewrite Forall_forall in Hall.
      apply Hall. eapply nth_error_In. exact Hb.
    + lia.
    + apply (IH i j); [lia|assumption|assumption].
Qed.

Lemma percentile_fn_le (data : list Q) (p p' : Q) :
  Sorted Qle data -> data <> [] ->
  (0 <= p)%Q -> (p <= p')%Q -> (p' < 1)%Q ->
  exists v v',
    percentile_fn data p = Ok (Some v) /\
    percentile_fn data p' = Ok (Some v') /\
    (v <= v')%Q.
Proof.
  intros Hs Hne H0 Hpp H1.
  assert (Hp1 : (p < 1)%Q) by (eapply Qle_lt_trans; eassumption).
  assert (Hp0 : (0 <= p')%Q) by (eapply Qle_trans; eassumption).
  destruct (percentile_fn_floor_item data p Hne H0 Hp1) as (v & Ev & Hr & Hv).
  destruct (percentile_fn_floor_item data p' Hne Hp0 H1) as (v' & Ev' & Hr' & Hv').
  exists v, v'. repeat split; [exact Ev|exact Ev'|].
  refine (sorted_nth_le data _ _ v v' Hs _ Hv Hv').
  apply Z2Nat.inj_le; [lia|lia|].
  apply Qfloor_resp_le.
  pose proof (len_nonempty data Hne) as Hn.
  assert (Hq : (0 < inject_Z (len data))%Q) by (rewrite (Zlt_Qlt 0 (len data)) in Hn; exact Hn).
  apply Qmult_le_l; assumption.
Qed.

(** X5: on an ascending non-empty list [percentile_fn] is monotone in the
    percentile: for [0 <= p <= p' < 1] both calls return and the value for
    [p] is at most the value for [p']. *)
Theorem percentile_fn_monotone (data : list Q) (p p' : Q) :
  Sorted Qle data -> data <> [] ->
  (0 <= p)%Q -> (p <= p')%Q -> (p' < 1)%Q ->
  exists v v',
    percentile_fn data p = Ok (Some v) /\
    percentile_fn data p' = Ok (Some v') /\
    (v <= v')%Q.
Proof. exact (percentile_fn_le data p p'). Qed.

Lemma percentile_fn_monotone_witness :
  exists v v',
    percentile_fn [1; 2; 3; 4]%Q 0.5 = Ok (Some v) /\
    percentile_fn [1; 2; 3; 4]%Q 0.9 = Ok (Some v') /\
    (v <= v')%Q.
Proof.
  apply (percentile_fn_monotone [1; 2; 3; 4]%Q 0.5 0.9).
  - repeat constructor; discriminate.
  - discriminate.
  - discriminate.
  - discriminate.
  - reflexivity.
Defined.






(** X7: the summary of an ascending non-empty list is ordered:
    [min <= p50 <= p90 <= p95 <= p99 <= max]. *)
Theorem summary_of_ascending_is_ordered (values : list Q) :
  Sorted Qle values -> values <> [] ->
  exists d mn p50 p90 p95 p99 mx,
    _get_sample_rates_data values = Ok d /\
    d_min d = Some mn /\ d_p50 d = Some p50 /\ d_p90 d = Some p90 /\
    d_p95 d = Some p95 /\ d_p99 d = Some p99 /\ d_max d = Some mx /\
    (mn <= p50)%Q /\ (p50 <= p90)%Q /\ (p90 <= p95)%Q /\ (p95 <= p99)%Q /\
    (p99 <= mx)%Q.
Proof.
  intros Hs Hne.
  destruct (get_sample_rates_data_nonempty values Hne)
    as (mn & mx & p50 & p90 & p95 & p99 & E & Hmin & Hmax & I50 & I90 & I95 & I99).
  assert (E' := E). unfold _get_sample_rates_data in E'.
  rewrite (mean_fn_nonempty values Hne) in E'. cbn [bind] in E'.
  destruct (percentile_fn_le values 0.5 0.9 Hs Hne) as (a & b & Ea & Eb & Hab);
    [easy|easy|easy|].
  destruct (percentile_fn_le values 0.9 0.95 Hs Hne) as (b' & c & Eb' & Ec & Hbc);
    [easy|easy|easy|].
  destruct (percentile_fn_le values 0.95 0.99 Hs Hne) as (c' & e & Ec' & Ee & Hce);
    [easy|easy|easy|].
  rewrite Ea, Eb, Ec, Ee in E'. cbn [bind] in E'.
  rewrite Eb in Eb'. injection Eb' as <-. rewrite Ec in Ec'. injection Ec' as <-.
  injection E' as _ _ <- <- <- <-.
  eexists _, mn, a, b, c, e, mx. split; [exact E|]. cbn.
  repeat split; try assumption.
  - eapply py_min_le; eassumption.
  - eapply py_max_ge; eassumption.
Qed.

Lemma summary_of_ascending_is_ordered_witness :
  exists d mn p50 p90 p95 p99 mx,
    _get_sample_rates_data [0.1; 0.2; 0.5]%Q = Ok d /\
    d_min d = Some mn /\ d_p50 d = Some p50 /\ d_p90 d = Some p90 /\
    d_p95 d = Some p95 /\ d_p99 d = Some p99 /\ d_max d = Some mx /\
    (mn <= p50)%Q /\ (p50 <= p90)%Q /\ (p90 <= p95)%Q /\ (p95 <= p99)%Q /\
    (p99 <= mx)%Q.
Proof.
  apply (summary_of_ascending_is_ordered [0.1; 0.2; 0.5]%Q).
  - repeat constructor; discriminate.
  - discriminate.
Defined.








(** On numbers [sorted] never raises; its result is ascending, is a
    permutation of the input, and sorting it again changes nothing. *)
Lemma sorted_floats_spec (l : list Q) :
  exists s,
    sorted float_lt l = Ok s /\
    Sorted Qle s /\ Permutation l s /\
    sorted float_lt s = Ok s.
Proof.
  destruct (float_sorted_total l) as (s & E & Hs & Hp).
  exists s. repeat split; try assumption.
  apply float_sorted_ascending. exact Hs.
Qed.

Section SortedValues.
Variable P : pyval -> bool.
Hypothesis P_comparable :
  forall a b, P a = true -> P b = true -> exists r, py_lt a b = Ok r.

Lemma insert_same_kind (x : pyval) (l : list pyval) :
  P x = true -> forallb P l = true -> exists r, insert py_lt x l = Ok r.
Proof.
  intros Hx. induction l as [|y l IH]; cbn; intros Hl.
  - eexists. reflexivity.
  - apply andb_prop in Hl. destruct Hl as [Hy Hl].
    destruct (P_comparable y x Hy Hx) as [[|] ->]; cbn.
    + destruct (IH Hl) as [r ->]. cbn. eexists. reflexivity.
    + eexists. reflexivity.
Qed.

Lemma sorted_same_kind (l : list pyval) :
  forallb P l = true -> exists s, sorted py_lt l = Ok s.
Proof.
  induction l as [|x l IH]; cbn; intros Hl.
  - eexists. reflexivity.
  - apply andb_prop in Hl. destruct Hl as [Hx Hl].
    destruct (IH Hl) as [s Es]. rewrite Es. cbn.
    apply insert_same_kind; [exact Hx|].
    apply forallb_forall. intros y Hy.
    rewrite forallb_forall in Hl. apply Hl.
    eapply Permutation_in; [apply Permutation_sym; eapply sorted_perm; exact Es|exact Hy].
Qed.
End SortedValues.

Lemma py_lt_ok_kind (a b : pyval) (r : bool) :
  py_lt a b = Ok r ->
  (is_str a = true /\ is_str b = true) \/ (is_number a = true /\ is_number b = true).
Proof. destruct a, b; cbn; intros H; try discriminate H; auto. Qed.

Lemma insert_ok_head (x y : pyval) (l r : list pyval) :
  insert py_lt x (y :: l) = Ok r -> exists b, py_lt y x = Ok b.
Proof.
  cbn. destruct (py_lt y x) as [b|e]; [eexists; reflexivity|discriminate].
Qed.

Lemma sorted_ok_homogeneous (l s : list pyval) :
  sorted py_lt l = Ok s -> (2 <= List.length l)%nat ->
  forallb is_str l = true \/ forallb is_number l = true.
Proof.
  revert s. induction l as [|x l IH]; intros s Es Hlen; [cbn in Hlen; lia|].
  cbn [sorted] in Es. destruct (sorted py_lt l) as [s'|e] eqn:Es'; [|discriminate].
  cbn [bind] in Es.
  pose proof (sorted_perm _ _ _ Es') as Hp.
  destruct s' as [|y s'].
  { apply Permutation_sym, Permutation_nil in Hp. subst l. cbn in Hlen. lia. }
  destruct (insert_ok_head _ _ _ _ Es) as [b Hb].
  apply py_lt_ok_kind in Hb.
  assert (Hy : In y l) by (eapply Permutation_in; [apply Permutation_sym; exact Hp|left; reflexivity]).
  destruct l as [|a [|a' l]].
  - destruct Hy.
  - destruct Hy as [->|[]]. cbn. destruct Hb as [[-> ->]|[-> ->]]; auto.
  - destruct (IH _ eq_refl ltac:(cbn; lia)) as [Hall|Hall].
    + pose proof Hall as Hall'. rewrite forallb_forall in Hall'. specialize (Hall' y Hy).
      destruct Hb as [[Hys Hxs]|[Hyn _]].
      * left. cbn [forallb]. rewrite Hxs. exact Hall.
      * destruct y; discriminate.
    + pose proof Hall as Hall'. rewrite forallb_forall in Hall'. specialize (Hall' y Hy).
      destruct Hb as [[Hys _]|[Hyn Hxn]].
      * destruct y; discriminate.
      * right. cbn [forallb]. rewrite Hxn. exact Hall.
Qed.

(** Sorting two or more row values succeeds exactly when they are all
    strings or all numbers; in every other case ([None] among them, or
    strings mixed with numbers) it raises [TypeError]. *)
Lemma sorted_values_succeeds_iff (l : list pyval) :
  (2 <= List.length l)%nat ->
  ((exists s, sorted py_lt l = Ok s) <->
   forallb is_str l = true \/ forallb is_number l = true) /\
  ((forall s, sorted py_lt l <> Ok s) -> sorted py_lt l = Raise TypeError).
Proof.
  intros Hlen. split; [split|].
  - intros [s Es]. eapply sorted_ok_homogeneous; eassumption.
  - intros [H|H].
    + apply (sorted_same_kind is_str); [|exact H].
      intros a b Ha Hb. destruct a, b; try discriminate. eexists. reflexivity.
    + apply (sorted_same_kind is_number); [|exact H].
      intros a b Ha Hb. destruct a, b; try discriminate; eexists; reflexivity.
  - intros Hno. destruct (sorted py_lt l) as [s|e] eqn:E.
    + destruct (Hno s eq_refl).
    + rewrite (py_sorted_raises _ _ E). reflexivity.
Qed.

(** * Further properties of the handler *)

Lemma get_execution (env : environment) (request : Request) (project : Project)
    (res : result Response) (log : list QueryArgs) :
  get env request project [] = (res, log) -> execution env request project res log.
Proof.
  unfold get.
  destruct (features_has env _ _ _) eqn:Hf; cbn [negb];
    [|intros [= <- <-]; apply run_disabled; exact Hf].
  destruct (requested_sample_size env request) as [n|e] eqn:Hn;
    [rewrite hbind_lift_ok
    |rewrite hbind_lift_raise; intros [= <- <-]; apply run_bad_sample_size; assumption].
  destruct (stats_period env request) as [period|e] eqn:Hp;
    [rewrite hbind_lift_ok
    |rewrite hbind_lift_raise; intros [= <- <-];
     apply (run_bad_stats_period env request project n); assumption].
  cbv zeta. fold (root_query env request project n period).
  fold (distributed_trace request).
  set (q1 := root_query env request project n period).
  rewrite hbind_run_query. cbn [app].
  intros H. enough (exists log', log = q1 :: log' /\ queried env request project n period res log')
    as (log' & -> & Hq) by (apply run_queried; assumption).
  revert H.
  destruct (discover_query env q1) as [rows|e] eqn:Eq1;
    [|intros [= <- <-]; eexists; split; [reflexivity|apply run_root_failed; exact Eq1]].
  fold (client_sample_rates rows). fold (trace_id_list rows).
  destruct (sorted py_lt (client_sample_rates rows)) as [sample_rates|e] eqn:Es.
  2:{ rewrite hbind_lift_raise. intros [= <- <-]. eexists. split; [reflexivity|].
      eapply run_unsortable; eassumption. }
  rewrite hbind_lift_ok.
  assert (Hlen : len sample_rates = len rows).
  { rewrite (sorted_length _ _ _ Es). unfold client_sample_rates, len.
    rewrite length_map. reflexivity. }
  destruct (Z.eqb_spec (len sample_rates) 0) as [E0|E0].
  { intros [= <- <-]. destruct rows; [|unfold len in *; cbn in *; lia].
    eexists. split; [reflexivity|]. apply run_empty. exact Eq1. }
  assert (Hne : rows <> []).
  { intros ->. apply E0. rewrite Hlen. reflexivity. }
  assert (Hpos : 0 < len rows) by (apply len_nonempty; exact Hne).
  fold (non_null sample_rates).
  destruct (mapM (py_float env) (non_null sample_rates)) as [floats|e] eqn:Ef.
  2:{ rewrite hbind_lift_raise. intros [= <- <-]. eexists. split; [reflexivity|].
      eapply run_bad_rate; eassumption. }
  rewrite hbind_lift_ok.
  destruct (float_sorted_total floats) as (rates & Er & Hsorted & Hperm).
  rewrite Er, hbind_lift_ok.
  assert (Hsample : sample env rows sample_rates floats rates) by (constructor; assumption).
  destruct (distributed_trace request) eqn:Hd.
  - destruct (join_comma (trace_id_list rows)) as [ids|e] eqn:Ej.
    2:{ rewrite hbind_lift_raise. intros [= <- <-]. eexists. split; [reflexivity|].
        eapply run_bad_trace; eassumption. }
    rewrite hbind_lift_ok.
    fold (breakdown_query env project ids period).
    set (q2 := breakdown_query env project ids period).
    rewrite hbind_run_query. cbn [app].
    destruct (discover_query env q2) as [breakdown|e] eqn:Eq2.
    2:{ intros [= <- <-]. eexists. split; [reflexivity|].
        eapply run_breakdown_failed; eassumption. }
    destruct (Z.ltb_spec 10 (len breakdown)) as [Hb|Hb].
    + intros [= <- <-]. eexists. split; [reflexivity|].
      eapply run_too_many; eassumption.
    + destruct (respond_ok (len rows) rates (Some breakdown) [q1; q2] Hpos) as (dists & Ed & ->).
      intros [= <- <-]. eexists. split; [reflexivity|].
      eapply run_breakdown; eassumption.
  - destruct (respond_ok (len rows) rates None [q1] Hpos) as (dists & Ed & ->).
    intros [= <- <-]. eexists. split; [reflexivity|].
    eapply run_single; eassumption.
Qed.

Lemma fan_out_run :
  get (fan_out_env 11) (scenario_request "1") scenario_project [] =
  (Ok too_many_projects_response, [scenario_b_root_query; fan_out_breakdown_query]).
Proof. vm_compute. reflexivity. Qed.

Lemma bad_rate_run :
  get bad_rate_env (scenario_request "0") scenario_project [] =
  (Raise ValueError, [scenario_b_root_query]).
Proof. vm_compute. reflexivity. Qed.

Lemma requested_sample_size_le (env : environment) (request : Request) (n : Z) :
  requested_sample_size env request = Ok n -> n <= 1000.
Proof.
  unfold requested_sample_size.
  destruct (GET_get (GET request) "sampleSize") as [s|].
  - destruct (int_of_str env s) as [m|e]; cbn; [|discriminate]. intros [= <-]. lia.
  - cbn. intros [= <-]. lia.
Qed.

Lemma stats_period_le (env : environment) (request : Request) (period : Z) :
  stats_period env request = Ok period -> period <= 86400.
Proof.
  unfold stats_period, timedelta_hours.
  destruct (parse_stats_period env _) as [p|]; [|discriminate]. intros [= <-]. lia.
Qed.

Lemma queried_log (env : environment) (request : Request) (project : Project)
    (n period : Z) (res : result Response) (log : list QueryArgs) :
  queried env request project n period res log ->
  log = [] \/ exists ids, log = [breakdown_query env project ids period].
Proof. intros H. destruct H; eauto. Qed.

(** X9: a request issues at most two queries, the root-transaction query
    first and then at most one breakdown query.  Every query starts at
    offset 0, ends at the current time, spans at most 24 hours and is
    scoped to the project's organization; the root-transaction query asks
    for at most 1000 rows of the requested project, the breakdown query
    for at most 20 rows over the organization's projects. *)
Theorem issued_queries_are_bounded (env : environment) (request : Request)
    (project : Project) (res : result Response) (log : list QueryArgs) :
  get env request project [] = (res, log) ->
  (List.length log <= 2)%nat /\
  (forall q rest, log = q :: rest ->
     referrer q = root_referrer /\
     forall q', In q' rest -> referrer q' = breakdown_referrer) /\
  (forall q, In q log ->
     offset q = 0 /\ end_ q = timezone_now env /\ end_ q - start q <= 86400 /\
     organization_id q = organization project /\
     ((referrer q = root_referrer /\ limit q <= 1000 /\ project_id q = [id project]) \/
      (referrer q = breakdown_referrer /\ limit q = 20 /\
       project_id q = projects_in_org env (organization project)))).
Proof.
  intros Hget. apply get_execution in Hget.
  destruct Hget as [?|? ? ?|? ? ? ? ?|n period res log' Hf Hn Hp Hq];
    try (split; [cbn; lia|split; [discriminate|intros q []]]).
  apply requested_sample_size_le in Hn. apply stats_period_le in Hp.
  apply queried_log in Hq.
  assert (Hroot : forall q, q = root_query env request project n period ->
            offset q = 0 /\ end_ q = timezone_now env /\ end_ q - start q <= 86400 /\
            organization_id q = organization project /\
            ((referrer q = root_referrer /\ limit q <= 1000 /\ project_id q = [id project]) \/
             (referrer q = breakdown_referrer /\ limit q = 20 /\
              project_id q = projects_in_org env (organization project)))).
  { intros q ->. cbn. repeat split; try lia. left. repeat split. exact Hn. }
  destruct Hq as [->|[ids ->]].
  - split; [cbn; lia|]. split.
    + intros q rest [= <- <-]. split; [reflexivity|intros q' []].
    + intros q [<-|[]]. apply Hroot. reflexivity.
  - split; [cbn; lia|]. split.
    + intros q rest [= <- <-]. split; [reflexivity|].
      intros q' [<-|[]]. reflexivity.
    + intros q [<-|[<-|[]]]; [apply Hroot; reflexivity|].
      cbn. repeat split; try lia. right. repeat split.
Qed.

Lemma issued_queries_are_bounded_witness :
  (List.length [scenario_b_root_query; fan_out_breakdown_query] <= 2)%nat.
Proof.
  apply (proj1 (issued_queries_are_bounded (fan_out_env 11) (scenario_request "1")
                  scenario_project _ _ fan_out_run)).
Defined.

(** X10: the handler issues no query exactly when the feature flag is off,
    the [sampleSize] parameter is not an integer or the [statsPeriod]
    parameter is malformed.  With the flag off the response is the 404
    one; a request that issues no query ends with that response or with
    an exception. *)
Theorem no_query_iff (env : environment) (request : Request)
    (project : Project) (res : result Response) (log : list QueryArgs) :
  get env request project [] = (res, log) ->
  (log = [] <->
   features_has env "organizations:filters-and-sampling"
     (organization project) (user request) = false \/
   (exists e, requested_sample_size env request = Raise e) \/
   (exists e, stats_period env request = Raise e)) /\
  (features_has env "organizations:filters-and-sampling"
     (organization project) (user request) = false ->
   res = Ok feature_disabled_response) /\
  (log = [] -> res = Ok feature_disabled_response \/ exists e, res = Raise e).
Proof.
  intros Hget. apply get_execution in Hget.
  destruct Hget as [Hf|e Hf Hn|n e Hf Hn Hp|n period res log' Hf Hn Hp Hq].
  - repeat split; eauto.
  - repeat split; eauto. congruence.
  - repeat split; eauto. congruence.
  - split; [split|split].
    + discriminate.
    + intros [H|[[e H]|[e H]]]; congruence.
    + congruence.
    + discriminate.
Qed.

Lemma no_query_iff_witness :
  [scenario_b_root_query] = [] <->
  features_has scenario_b_env "organizations:filters-and-sampling"
    (organization scenario_project) (user (scenario_request "0")) = false \/
  (exists e, requested_sample_size scenario_b_env (scenario_request "0") = Raise e) \/
  (exists e, stats_period scenario_b_env (scenario_request "0") = Raise e).
Proof.
  apply (proj1 (no_query_iff scenario_b_env (scenario_request "0") scenario_project
                  _ _ scenario_b_run)).
Defined.

Lemma sample_size_pos (env : environment) (rows : list row) (sample_rates : list pyval)
    (floats rates : list Q) :
  sample env rows sample_rates floats rates -> 0 < len rows.
Proof. intros [Hne _ _ _]. apply len_nonempty. exact Hne. Qed.

(** X11: in a report, [project_breakdown] is absent exactly when the
    request is not in distributed-trace mode or the sample is empty.  When
    it is present it has at most 10 rows and is what the breakdown query
    of this request returned. *)
Theorem project_breakdown_absent_iff (env : environment) (request : Request)
    (project : Project) (r : report) (st : Z) (log : list QueryArgs) :
  get env request project [] = (Ok {| data := Report r; status := st |}, log) ->
  (project_breakdown r = None <->
   distributed_trace request = false \/ sample_size r = 0) /\
  (forall breakdown, project_breakdown r = Some breakdown ->
     len breakdown <= 10 /\ exists q, In q log /\ referrer q = breakdown_referrer /\
                                      discover_query env q = Ok breakdown).
Proof.
  intros Hget. apply get_execution in Hget.
  inversion Hget as [| | |n period res log' Hf Hn Hp Hq]; subst.
  inversion Hq; subst; cbn.
  - split; [split; auto|discriminate].
  - split; [split; auto|discriminate].
  - match goal with H : sample _ _ _ _ _ |- _ => apply sample_size_pos in H end.
    split; [split; [discriminate|intros [H|H]; [congruence|lia]]|].
    intros bd [= <-]. split; [assumption|].
    eexists. split; [right; left; reflexivity|]. split; [reflexivity|assumption].
Qed.

Lemma project_breakdown_absent_iff_witness :
  project_breakdown scenario_b_report = None <->
  distributed_trace (scenario_request "0") = false \/ sample_size scenario_b_report = 0.
Proof.
  apply (proj1 (project_breakdown_absent_iff scenario_b_env (scenario_request "0")
                  scenario_project scenario_b_report 200 [scenario_b_root_query]
                  scenario_b_run)).
Defined.

Lemma filter_perm {A : Type} (f : A -> bool) (l l' : list A) :
  Permutation l l' -> Permutation (filter f l) (filter f l').
Proof.
  induction 1 as [|x l l' _ IH|x y l|l l' l'' _ IH1 _ IH2]; cbn.
  - apply perm_nil.
  - destruct (f x); [apply perm_skip|]; exact IH.
  - destruct (f x), (f y); try apply Permutation_refl. apply perm_swap.
  - eapply Permutation_trans; eassumption.
Qed.

Lemma mapM_perm {A B : Type} (f : A -> result B) (l l' : list A) :
  Permutation l l' ->
  forall r, mapM f l = Ok r -> exists r', mapM f l' = Ok r' /\ Permutation r r'.
Proof.
  induction 1 as [|x l l' _ IH|x y l|l l' l'' _ IH1 _ IH2]; cbn; intros r.
  - intros [= <-]. exists []. split; [reflexivity|apply perm_nil].
  - destruct (f x) as [b|e]; cbn; [|discriminate].
    destruct (mapM f l) as [bs|e]; cbn; [|discriminate].
    intros [= <-]. destruct (IH bs eq_refl) as (bs' & -> & Hp). cbn.
    exists (b :: bs'). split; [reflexivity|apply perm_skip; exact Hp].
  - destruct (f y) as [b|e]; cbn; [|discriminate].
    destruct (f x) as [a|e]; cbn; [|discriminate].
    destruct (mapM f l) as [bs|e]; cbn; [|discriminate].
    intros [= <-]. exists (a :: b :: bs). split; [reflexivity|apply perm_swap].
  - intros Hr. destruct (IH1 r Hr) as (r' & Hr' & Hp1).
    destruct (IH2 r' Hr') as (r'' & Hr'' & Hp2).
    exists r''. split; [exact Hr''|eapply Permutation_trans; eassumption].
Qed.

Lemma mapM_ok_all {A B : Type} (f : A -> result B) (l : list A) (r : list B) :
  mapM f l = Ok r -> forall x, In x l -> exists y, f x = Ok y.
Proof.
  revert r. induction l as [|a l IH]; cbn; intros r Hr x; [intros []|].
  destruct (f a) as [b|e] eqn:Ea; cbn in Hr; [|discriminate].
  destruct (mapM f l) as [bs|e]; cbn in Hr; [|discriminate].
  intros [<-|Hx]; [eexists; exact Ea|eapply IH; [reflexivity|exact Hx]].
Qed.

(** The numeric rates of a sample, in the order of its rows. *)
Lemma sample_values (env : environment) (rows : list row) (sample_rates : list pyval)
    (floats rates : list Q) :
  sample env rows sample_rates floats rates ->
  exists values,
    mapM (py_float env) (non_null (client_sample_rates rows)) = Ok values /\
    Permutation values rates /\ Sorted Qle rates /\ len rates = len values.
Proof.
  intros [Hne Hs Hf Hr].
  pose proof (sorted_perm _ _ _ Hs) as Hp.
  destruct (mapM_perm (py_float env) _ _
              (filter_perm (fun v => negb (in_empty_or_none v)) _ _ (Permutation_sym Hp))
              floats Hf) as (values & Hv & Hpv).
  destruct (float_sorted_total floats) as (rates' & Er & Hsorted & Hperm).
  rewrite Er in Hr. injection Hr as <-.
  exists values. split; [exact Hv|].
  assert (Hvr : Permutation values rates')
    by (eapply Permutation_trans; [apply Permutation_sym; exact Hpv|exact Hperm]).
  repeat split; try assumption.
  unfold len. rewrite (Permutation_length Hvr). reflexivity.
Qed.

(** X12: in a report with a non-empty sample, [sample_size] is the number
    of rows the root-transaction query returned, the distribution is the
    summary of the ascending rearrangement of [float(rate)] over the rows
    whose rate is neither [""] nor [None], and
    [null_sample_rate_percentage] is the share of the remaining rows,
    times 100. *)
Theorem report_summarizes_numeric_rates (env : environment) (request : Request)
    (project : Project) (r : report) (st : Z) (log : list QueryArgs) :
  get env request project [] = (Ok {| data := Report r; status := st |}, log) ->
  0 < sample_size r ->
  exists q rest rows values rates dists,
    log = q :: rest /\ discover_query env q = Ok rows /\
    sample_size r = len rows /\
    mapM (py_float env) (non_null (client_sample_rates rows)) = Ok values /\
    Permutation values rates /\ Sorted Qle rates /\
    _get_sample_rates_data rates = Ok dists /\
    sample_rate_distributions r = Some dists /\
    null_sample_rate_percentage r =
      Some (inject_Z (len rows - len values) / inject_Z (len rows) * 100)%Q.
Proof.
  intros Hget Hpos. apply get_execution in Hget.
  inversion Hget as [| | |n period res log' Hf Hn Hp Hq]; subst.
  inversion Hq; subst; cbn in Hpos; try lia.
  all: match goal with
    | H : sample _ _ _ _ _ |- _ =>
        pose proof (sample_values _ _ _ _ _ H) as Hsv
    end. all: destruct Hsv as (values & Hv & Hperm & Hsorted & Hlen).
  all:
    eexists _, _, rows, values, rates, dists;
    (split; [reflexivity|]); (split; [eassumption|]);
    cbn; rewrite Hlen; repeat split; assumption.
Qed.

Lemma report_summarizes_numeric_rates_witness :
  exists q rest rows values rates dists,
    [scenario_b_root_query] = q :: rest /\ discover_query scenario_b_env q = Ok rows /\
    sample_size scenario_b_report = len rows /\
    mapM (py_float scenario_b_env) (non_null (client_sample_rates rows)) = Ok values /\
    Permutation values rates /\ Sorted Qle rates /\
    _get_sample_rates_data rates = Ok dists /\
    sample_rate_distributions scenario_b_report = Some dists /\
    null_sample_rate_percentage scenario_b_report =
      Some (inject_Z (len rows - len values) / inject_Z (len rows) * 100)%Q.
Proof.
  apply (report_summarizes_numeric_rates scenario_b_env (scenario_request "0")
           scenario_project scenario_b_report 200 [scenario_b_root_query]
           scenario_b_run).
  reflexivity.
Defined.





Lemma join_comma_ok (items : list pyval) (ids : string) :
  join_comma items = Ok ids ->
  exists traces, items = map PyStr traces /\ ids = String.concat "," traces.
Proof.
  unfold join_comma.
  destruct (mapM _ items) as [strs|e] eqn:E; cbn; [|discriminate].
  intros [= <-]. exists strs. split; [|reflexivity].
  revert strs E. induction items as [|v items IH]; cbn; intros strs.
  - intros [= <-]. reflexivity.
  - destruct v; cbn; try discriminate.
    destruct (mapM _ items) as [strs'|e]; cbn; [|discriminate].
    intros [= <-]. cbn. f_equal. apply IH. reflexivity.
Qed.

(** X14: a breakdown query is issued only in distributed-trace mode and
    after a non-empty sample; its filter is
    ["event.type:transaction trace:[...]"] with the trace id of every row
    of the sample, in row order and separated by commas (one entry per
    row, repeated ids included). *)
Theorem breakdown_query_lists_sample_traces (env : environment) (request : Request)
    (project : Project) (res : result Response) (log : list QueryArgs) (q2 : QueryArgs) :
  get env request project [] = (res, log) ->
  In q2 log -> referrer q2 = breakdown_referrer ->
  exists q1 rows traces,
    log = [q1; q2] /\ discover_query env q1 = Ok rows /\ rows <> [] /\
    distributed_trace request = true /\
    trace_id_list rows = map PyStr traces /\
    query q2 = ("event.type:transaction trace:[" ++ String.concat "," traces ++ "]")%string.
Proof.
  intros Hget Hin Href. apply get_execution in Hget.
  inversion Hget as [| | |n period res' log' Hf Hn Hp Hq]; subst;
    try (destruct Hin; fail).
  destruct Hin as [<-|Hin]; [discriminate Href|].
  inversion Hq; subst; try (destruct Hin; fail);
    destruct Hin as [<-|[]];
    match goal with
    | H : join_comma _ = Ok _ |- _ => destruct (join_comma_ok _ _ H) as (traces & Ht & ->)
    end;
    match goal with
    | H : sample _ _ _ _ _ |- _ => destruct H as [Hne _ _ _]
    end;
    eexists _, rows, traces; repeat split; try eassumption; reflexivity.
Qed.

Lemma breakdown_query_lists_sample_traces_witness :
  exists q1 rows traces,
    [scenario_b_root_query; fan_out_breakdown_query] = [q1; fan_out_breakdown_query] /\
    discover_query (fan_out_env 11) q1 = Ok rows /\ rows <> [] /\
    distributed_trace (scenario_request "1") = true /\
    trace_id_list rows = map PyStr traces /\
    query fan_out_breakdown_query =
      ("event.type:transaction trace:[" ++ String.concat "," traces ++ "]")%string.
Proof.
  apply (breakdown_query_lists_sample_traces (fan_out_env 11) (scenario_request "1")
           scenario_project _ _ fan_out_breakdown_query fan_out_run).
  - right. left. reflexivity.
  - reflexivity.
Defined.

(** X15: when a row of the sample has a rate that is neither [""] nor
    [None] and that [float] rejects, the handler returns no response: it
    raises after the root-transaction query and issues no other query. *)
Theorem unparsable_rate_raises (env : environment) (request : Request)
    (project : Project) (res : result Response) (q : QueryArgs) (rest : list QueryArgs)
    (rows : list row) (v : pyval) (e : exn) :
  get env request project [] = (res, q :: rest) ->
  discover_query env q = Ok rows ->
  In v (client_sample_rates rows) -> in_empty_or_none v = false ->
  py_float env v = Raise e ->
  (exists e', res = Raise e') /\ rest = [].
Proof.
  intros Hget Hrows Hin Hnn Hv. apply get_execution in Hget.
  inversion Hget as [| | |n period res' log' Hf Hn Hp Hq]; subst.
  assert (Hbad : forall sample_rates floats rates,
            ~ sample env rows sample_rates floats rates).
  { intros sample_rates floats rates [_ Hs Hf' _].
    destruct (mapM_ok_all _ _ _ Hf' v) as [y Hy]; [|congruence].
    unfold non_null. apply filter_In. split; [|rewrite Hnn; reflexivity].
    eapply Permutation_in; [eapply sorted_perm; exact Hs|exact Hin]. }
  inversion Hq; subst; try (split; [eexists|]; reflexivity);
    match goal with
    | H : discover_query _ _ = Ok ?rows' |- _ =>
        tryif constr_eq rows' rows then fail
        else (assert (rows' = rows) by congruence; try subst rows')
    end;
    try (exfalso; eapply Hbad; eassumption).
  subst rows. destruct Hin.
Qed.

Lemma unparsable_rate_raises_witness :
  (exists e', Raise ValueError = Raise e' :> result Response) /\ @nil QueryArgs = [].
Proof.
  apply (unparsable_rate_raises bad_rate_env (scenario_request "0") scenario_project
           (Raise ValueError) scenario_b_root_query [] bad_rate_rows (PyStr "n/a") ValueError
           bad_rate_run).
  - reflexivity.
  - right. left. reflexivity.
  - reflexivity.
  - reflexivity.
Defined.

Lemma mixed_rate_run :
  get mixed_rate_env (scenario_request "0") scenario_project [] =
  (Raise TypeError, [scenario_b_root_query]).
Proof. vm_compute. reflexivity. Qed.

(** X16: when the sample has two or more rows and their rates are neither
    all strings nor all numbers ([None] among them, or strings mixed with
    numbers), the handler returns no response: sorting the rates raises
    [TypeError] right after the root-transaction query. *)
Theorem mixed_rates_raise (env : environment) (request : Request)
    (project : Project) (res : result Response) (q : QueryArgs) (rest : list QueryArgs)
    (rows : list row) :
  get env request project [] = (res, q :: rest) ->
  discover_query env q = Ok rows -> (2 <= List.length rows)%nat ->
  forallb is_str (client_sample_rates rows) = false ->
  forallb is_number (client_sample_rates rows) = false ->
  res = Raise TypeError /\ rest = [].
Proof.
  intros Hget Hrows Hlen Hstr Hnum. apply get_execution in Hget.
  inversion Hget as [| | |n period res' log' Hf Hn Hp Hq]; subst.
  assert (Hbad : forall sample_rates,
            sorted py_lt (client_sample_rates rows) <> Ok sample_rates).
  { intros sample_rates Hs.
    destruct (sorted_ok_homogeneous _ _ Hs) as [H|H]; [|congruence|congruence].
    unfold client_sample_rates. rewrite length_map. exact Hlen. }
  inversion Hq; subst; try congruence;
    match goal with
    | H : discover_query _ _ = Ok ?rows' |- _ =>
        tryif constr_eq rows' rows then fail
        else (assert (rows' = rows) by congruence; try subst rows')
    end;
    try match goal with
        | H : sample _ _ _ _ _ |- _ => destruct H as [_ Hs _ _]
        end;
    try (exfalso; eapply Hbad; eassumption).
  - split; [|reflexivity].
    match goal with
    | H : sorted py_lt _ = Raise _ |- _ => rewrite (py_sorted_raises _ _ H)
    end. reflexivity.
  - subst rows. cbn in Hlen. lia.
Qed.

Lemma mixed_rates_raise_witness :
  Raise TypeError = Raise TypeError :> result Response /\ @nil QueryArgs = [].
Proof.
  apply (mixed_rates_raise mixed_rate_env (scenario_request "0") scenario_project
           (Raise TypeError) scenario_b_root_query [] mixed_rate_rows mixed_rate_run).
  - reflexivity.
  - cbn. lia.
  - reflexivity.
  - reflexivity.
Defined.

(** * Properties of the data-forwarding plugin base *)

Lemma df_is_ratelimited_true (svc : DataForwarding.services) (self : DataForwarding.Plugin)
    (event : DataForwarding.Event) :
  fst (DataForwarding.is_ratelimited svc self event) = true <->
  fst (DataForwarding.get_rate_limit self) <> 0 /\
  snd (DataForwarding.get_rate_limit self) <> 0 /\
  DataForwarding.is_limited svc (DataForwarding.get_rl_key self event)
    (fst (DataForwarding.get_rate_limit self))
    (snd (DataForwarding.get_rate_limit self)) = true.
Proof.
  unfold DataForwarding.is_ratelimited.
  destruct (DataForwarding.get_rate_limit self) as [limit window]. cbn [fst snd].
  destruct (Z.eqb_spec limit 0) as [Hl|Hl]; cbn [negb].
  - split; [discriminate|intros [H _]; contradiction].
  - destruct (Z.eqb_spec window 0) as [Hw|Hw]; cbn [negb].
    + split; [discriminate|intros [_ [H _]]; contradiction].
    + cbv zeta.
      destruct (DataForwarding.is_limited svc (DataForwarding.get_rl_key self event)
                  limit window); cbn.
      * split; auto.
      * split; [discriminate|intros [_ [_ H]]; discriminate].
Qed.

Lemma df_is_ratelimited_trace (svc : DataForwarding.services) (self : DataForwarding.Plugin)
    (event : DataForwarding.Event) :
  filter DataForwarding.is_forward (snd (DataForwarding.is_ratelimited svc self event)) = [] /\
  filter DataForwarding.is_incr (snd (DataForwarding.is_ratelimited svc self event)) = [].
Proof.
  unfold DataForwarding.is_ratelimited.
  destruct (DataForwarding.get_rate_limit self) as [limit window].
  cbv zeta.
  destruct (negb (limit =? 0)), (negb (window =? 0)),
    (DataForwarding.is_limited svc (DataForwarding.get_rl_key self event) limit window);
    split; reflexivity.
Qed.

(** X17: [post_process] on a rate-limited event returns without
    forwarding the event or touching the counter; on any other event it
    calls [forward_event] exactly once, with the serialized event. *)
Theorem df_forwards_once_unless_rate_limited (svc : DataForwarding.services)
    (self : DataForwarding.Plugin) (event : DataForwarding.Event) :
  let trace := snd (DataForwarding.post_process svc self event) in
  (fst (DataForwarding.is_ratelimited svc self event) = true ->
     filter DataForwarding.is_forward trace = [] /\
     filter DataForwarding.is_incr trace = [] /\
     fst (DataForwarding.post_process svc self event) = None) /\
  (fst (DataForwarding.is_ratelimited svc self event) = false ->
     filter DataForwarding.is_forward trace =
       [DataForwarding.ForwardEvent event (DataForwarding.serialize svc event)]).
Proof.
  cbv zeta. unfold DataForwarding.post_process.
  pose proof (df_is_ratelimited_trace svc self event) as [Hf Hi].
  destruct (DataForwarding.is_ratelimited svc self event) as [limited trace].
  cbn [fst snd] in *. split.
  - intros ->. cbn [fst snd]. auto.
  - intros ->.
    destruct (DataForwarding.forward_event self event _); cbn [fst snd];
      rewrite filter_app, Hf; reflexivity.
Qed.

(** X18: [post_process] increments the [project_total_forwarded] counter
    of the event's project, once and by 1, exactly when the event is not
    rate limited and [forward_event] returns, whether it returns [True] or
    [False]; otherwise the counter is not touched. *)
Theorem df_counter_incremented_iff_forward_returned (svc : DataForwarding.services)
    (self : DataForwarding.Plugin) (event : DataForwarding.Event) :
  let trace := snd (DataForwarding.post_process svc self event) in
  (fst (DataForwarding.is_ratelimited svc self event) = false /\
   (exists success,
      DataForwarding.forward_event self event (DataForwarding.serialize svc event)
      = inr success) ->
   filter DataForwarding.is_incr trace =
     [DataForwarding.TsdbIncr "project_total_forwarded"
        (DataForwarding.id (DataForwarding.project event)) 1]) /\
  (~ (fst (DataForwarding.is_ratelimited svc self event) = false /\
      exists success,
        DataForwarding.forward_event self event (DataForwarding.serialize svc event)
        = inr success) ->
   filter DataForwarding.is_incr trace = []).
Proof.
  cbv zeta. unfold DataForwarding.post_process.
  pose proof (df_is_ratelimited_trace svc self event) as [Hf Hi].
  destruct (DataForwarding.is_ratelimited svc self event) as [limited trace].
  cbn [fst snd] in *. split.
  - intros [-> [success ->]]. cbn [fst snd]. rewrite filter_app, Hi. reflexivity.
  - intros Hno. destruct limited; cbn [fst snd]; [exact Hi|].
    destruct (DataForwarding.forward_event self event _) as [e|success] eqn:E;
      cbn [fst snd]; rewrite filter_app, Hi; [reflexivity|].
    exfalso. apply Hno. split; [reflexivity|]. exists success. reflexivity.
Qed.

(** X19: the rate limiter is consulted, once and with the plugin's key,
    limit and window, exactly when the limit and the window are both
    non-zero; a plugin whose limit or window is 0 never consults it and
    always forwards. *)
Theorem df_limiter_consulted_iff (svc : DataForwarding.services)
    (self : DataForwarding.Plugin) (event : DataForwarding.Event) :
  let trace := snd (DataForwarding.post_process svc self event) in
  let limit := fst (DataForwarding.get_rate_limit self) in
  let window := snd (DataForwarding.get_rate_limit self) in
  (limit <> 0 /\ window <> 0 ->
     filter DataForwarding.is_limiter_call trace =
       [DataForwarding.IsLimited (DataForwarding.get_rl_key self event) limit window]) /\
  (limit = 0 \/ window = 0 ->
     filter DataForwarding.is_limiter_call trace = [] /\
     filter DataForwarding.is_forward trace =
       [DataForwarding.ForwardEvent event (DataForwarding.serialize svc event)]).
Proof.
  cbv zeta. unfold DataForwarding.post_process, DataForwarding.is_ratelimited.
  destruct (DataForwarding.get_rate_limit self) as [limit window]. cbn [fst snd].
  destruct (Z.eqb_spec limit 0) as [Hl|Hl]; cbn [negb];
    [|destruct (Z.eqb_spec window 0) as [Hw|Hw]; cbn [negb]].
  - split; [intros [H _]; contradiction|intros _].
    destruct (DataForwarding.forward_event self event _); split; reflexivity.
  - split; [intros [_ H]; contradiction|intros _].
    destruct (DataForwarding.forward_event self event _); split; reflexivity.
  - split; [intros _|intros [H|H]; contradiction].
    cbv zeta.
    destruct (DataForwarding.is_limited svc (DataForwarding.get_rl_key self event)
                limit window); [reflexivity|].
    destruct (DataForwarding.forward_event self event _); reflexivity.
Qed.

(** X20: with [DataForwardingPlugin] itself (limit 50 per second,
    [forward_event] not implemented) [post_process] never increments the
    counter: a rate-limited event is dropped, any other event ends in
    [NotImplementedError]. *)
Theorem df_base_plugin_never_forwards (svc : DataForwarding.services) (key : string)
    (event : DataForwarding.Event) :
  let run := DataForwarding.post_process svc (DataForwarding.base_plugin key) event in
  filter DataForwarding.is_incr (snd run) = [] /\
  (DataForwarding.is_limited svc
     (DataForwarding.get_rl_key (DataForwarding.base_plugin key) event) 50 1 = false ->
   fst run = Some DataForwarding.NotImplementedError) /\
  (DataForwarding.is_limited svc
     (DataForwarding.get_rl_key (DataForwarding.base_plugin key) event) 50 1 = true ->
   fst run = None /\ filter DataForwarding.is_forward (snd run) = []).
Proof.
  cbv zeta. unfold DataForwarding.post_process, DataForwarding.is_ratelimited.
  cbn [DataForwarding.get_rate_limit DataForwarding.base_plugin
       DataForwarding.forward_event Z.eqb negb].
  cbv zeta.
  destruct (DataForwarding.is_limited svc
              (DataForwarding.get_rl_key (DataForwarding.base_plugin key) event) 50 1); cbn.
  - repeat split; congruence.
  - repeat split; congruence.
Qed.

Lemma str_int_inj (a b : Z) : DataForwarding.str_int a = DataForwarding.str_int b -> a = b.
Proof.
  unfold DataForwarding.str_int. intros H.
  assert (Hn : forall z, Z.to_int z <> Decimal.Pos Decimal.Nil /\
                         Z.to_int z <> Decimal.Neg Decimal.Nil).
  { intros [|p|p]; cbn; split; try discriminate;
      intros [= E]; apply (DecimalPos.Unsigned.to_uint_nonnil p); exact E. }
  assert (E : Some (Z.to_int a) = Some (Z.to_int b)).
  { rewrite <- (NilZero.isi (Z.to_int a)), <- (NilZero.isi (Z.to_int b)) by apply Hn.
    rewrite H. reflexivity. }
  injection E as E. rewrite <- (DecimalZ.of_to a), <- (DecimalZ.of_to b), E. reflexivity.
Qed.

Lemma append_inj_l (p s t : string) : (p ++ s)%string = (p ++ t)%string -> s = t.
Proof.
  induction p as [|c p IH]; cbn; [auto|]. intros [= H]. apply IH. exact H.
Qed.

(** X21: for one plugin, two events have the same rate-limit key exactly
    when their projects belong to the same organization. *)
Theorem df_rate_limit_key_per_organization (self : DataForwarding.Plugin)
    (e1 e2 : DataForwarding.Event) :
  DataForwarding.get_rl_key self e1 = DataForwarding.get_rl_key self e2 <->
  DataForwarding.organization_id (DataForwarding.project e1) =
  DataForwarding.organization_id (DataForwarding.project e2).
Proof.
  unfold DataForwarding.get_rl_key. split.
  - intros H. apply append_inj_l in H. apply (append_inj_l ":") in H.
    apply str_int_inj. exact H.
  - intros ->. reflexivity.
Qed.

(** * Properties of the Microsoft Teams card builder *)

Lemma fold_left_append (items body : list MSTeams.value) :
  fold_left MSTeams.append items body = body ++ items.
Proof.
  revert body. induction items as [|a items IH]; intros body; cbn.
  - rewrite app_nil_r. reflexivity.
  - rewrite IH. unfold MSTeams.append. rewrite <- app_assoc. reflexivity.
Qed.

(** X22: when the [fields] keyword is a list, [_build] returns an
    AdaptiveCard whose body is, in this order: the title if it is truthy,
    the text if it is truthy, the fields, the footer if it is truthy, and
    the actions (none when [actions] is omitted). *)
Theorem msteams_build_body_layout (text title footer : MSTeams.value)
    (actions : list MSTeams.value) (kwargs : list (string * MSTeams.value))
    (fields : list MSTeams.value) :
  MSTeams.kwargs_get kwargs "fields" = MSTeams.VList fields ->
  MSTeams._build text title footer (Some actions) kwargs =
    Ok (MSTeams.card (MSTeams.optional title ++ MSTeams.optional text ++ fields ++
                      MSTeams.optional footer ++ actions)) /\
  MSTeams._build text title footer None kwargs =
    Ok (MSTeams.card (MSTeams.optional title ++ MSTeams.optional text ++ fields ++
                      MSTeams.optional footer)).
Proof.
  intros Hf. unfold MSTeams._build, MSTeams.optional, MSTeams.append. cbv zeta.
  rewrite Hf. cbn [MSTeams.extend bind].
  rewrite !fold_left_append.
  assert (Ha : MSTeams.actions_or_empty (Some actions) = actions) by (destruct actions; reflexivity).
  rewrite Ha. cbn [MSTeams.actions_or_empty].
  destruct (MSTeams.truthy title), (MSTeams.truthy text), (MSTeams.truthy footer);
    cbn [app]; rewrite ?app_nil_r, <- ?app_assoc; cbn [app]; split; reflexivity.
Qed.

Lemma msteams_build_body_layout_witness :
  MSTeams._build (MSTeams.get_text_block "body" None) MSTeams.VNone (MSTeams.VStr "")
    None [("fields", MSTeams.VList [MSTeams.get_text_block "field" None])] =
  Ok (MSTeams.card (MSTeams.optional MSTeams.VNone ++
                    MSTeams.optional (MSTeams.get_text_block "body" None) ++
                    [MSTeams.get_text_block "field" None] ++
                    MSTeams.optional (MSTeams.VStr ""))).
Proof.
  apply (proj2 (msteams_build_body_layout (MSTeams.get_text_block "body" None)
                  MSTeams.VNone (MSTeams.VStr "") []
                  [("fields", MSTeams.VList [MSTeams.get_text_block "field" None])]
                  [MSTeams.get_text_block "field" None] eq_refl)).
Defined.



(** * Properties of the Microsoft Teams notification sender *)

Lemma tbind_trace {A B : Type} (m : MSTeamsNotifications.traced A)
    (k : A -> MSTeamsNotifications.traced B) :
  exists t', snd (MSTeamsNotifications.tbind m k) = snd m ++ t' /\
    ((exists e, fst m = inl e /\ t' = [] /\ fst (MSTeamsNotifications.tbind m k) = inl e) \/
     (exists a, fst m = inr a /\ t' = snd (k a) /\
                fst (MSTeamsNotifications.tbind m k) = fst (k a))).
Proof.
  destruct m as [[e|a] t]; cbn.
  - exists []. split; [rewrite app_nil_r; reflexivity|]. left. eauto.
  - destruct (k a) as [r t'] eqn:E. cbn. exists t'. split; [reflexivity|].
    right. exists a. rewrite E. auto.
Qed.

Lemma get_conversation_id_sends_nothing (svc : MSTeamsNotifications.services)
    (client : MSTeamsNotifications.Integration) (user_id ext : string) :
  filter MSTeamsNotifications.is_send
    (snd (MSTeamsNotifications.get_conversation_id svc client user_id ext)) = [].
Proof.
  unfold MSTeamsNotifications.get_conversation_id, MSTeamsNotifications.call.
  destruct (MSTeamsNotifications.get_member_list svc client ext) as [e|response]; cbn;
    [reflexivity|].
  destruct (MSTeamsNotifications.first_member _) as [e|member]; cbn; [reflexivity|].
  destruct (MSTeamsNotifications.member_tenant_id member) as [e|tenant]; cbn; [reflexivity|].
  destruct (MSTeamsNotifications.get_user_conversation_id svc client user_id tenant);
    reflexivity.
Qed.

(** The cards sent by the loop over the channels of a recipient. *)
Lemma send_to_channels_sends (svc : MSTeamsNotifications.services) (card_ : MSTeams.value)
    (channels : list (string * MSTeamsNotifications.Integration)) :
  let run := MSTeamsNotifications.send_to_channels svc card_ channels in
  (List.length (filter MSTeamsNotifications.is_send (snd run)) <= List.length channels)%nat /\
  (fst run = inr tt ->
   List.length (filter MSTeamsNotifications.is_send (snd run)) = List.length channels) /\
  (forall a, In a (filter MSTeamsNotifications.is_send (snd run)) ->
     exists channel integration conversation_id,
       In (channel, integration) channels /\
       a = MSTeamsNotifications.SendCard integration conversation_id card_).
Proof.
  cbv zeta. induction channels as [|[channel integration] rest IH].
  - cbn. split; [lia|]. split; [reflexivity|intros a []].
  - cbn [MSTeamsNotifications.send_to_channels].
    pose proof (get_conversation_id_sends_nothing svc integration channel
                  (MSTeamsNotifications.external_id integration)) as Hc.
    destruct (MSTeamsNotifications.get_conversation_id svc integration channel _)
      as [[e|conversation_id] t]; cbn [snd] in Hc.
    { cbn. rewrite Hc. cbn. split; [lia|]. split; [discriminate|intros a []]. }
    cbn [MSTeamsNotifications.tbind MSTeamsNotifications.log MSTeamsNotifications.call].
    destruct (MSTeamsNotifications.send_card svc integration conversation_id card_)
      as [e|[]].
    { cbn. rewrite !filter_app, Hc. cbn. split; [lia|]. split; [discriminate|].
      intros a [<-|[]]. exists channel, integration, conversation_id.
      split; [left; reflexivity|reflexivity]. }
    destruct (MSTeamsNotifications.send_to_channels svc card_ rest) as [r t'].
    cbn [fst snd] in *. destruct IH as (IHle & IHeq & IHin).
    rewrite !filter_app, Hc. cbn [filter MSTeamsNotifications.is_send app List.length].
    split; [|split].
    + lia.
    + intros Hr. rewrite (IHeq Hr). reflexivity.
    + intros a [<-|Ha].
      * exists channel, integration, conversation_id. split; [left; reflexivity|reflexivity].
      * destruct (IHin a Ha) as (c & i & cid & Hin & ->).
        exists c, i, cid. split; [right; exact Hin|reflexivity].
Qed.

Lemma channel_count_cons (recipient : MSTeamsNotifications.Recipient)
    (channels : list (string * MSTeamsNotifications.Integration))
    (rest : list (MSTeamsNotifications.Recipient *
                  list (string * MSTeamsNotifications.Integration))) :
  MSTeamsNotifications.channel_count ((recipient, channels) :: rest) =
  (List.length channels + MSTeamsNotifications.channel_count rest)%nat.
Proof. reflexivity. Qed.

Lemma send_to_recipients_sends (svc : MSTeamsNotifications.services)
    (notification : MSTeamsNotifications.Notification) (shared_context : MSTeams.value)
    (extra : option (list (Z * MSTeams.value)))
    (data_ : list (MSTeamsNotifications.Recipient *
                   list (string * MSTeamsNotifications.Integration))) :
  let run := MSTeamsNotifications.send_to_recipients svc notification shared_context extra data_ in
  (List.length (filter MSTeamsNotifications.is_send (snd run))
   <= MSTeamsNotifications.channel_count data_)%nat /\
  (fst run = inr tt ->
   List.length (filter MSTeamsNotifications.is_send (snd run))
   = MSTeamsNotifications.channel_count data_) /\
  (forall a, In a (filter MSTeamsNotifications.is_send (snd run)) ->
     exists recipient channels channel integration conversation_id card_,
       In (recipient, channels) data_ /\ In (channel, integration) channels /\
       MSTeamsNotifications.card_for svc notification shared_context extra recipient = inr card_ /\
       a = MSTeamsNotifications.SendCard integration conversation_id card_).
Proof.
  cbv zeta. induction data_ as [|[recipient channels] rest IH].
  - cbn. split; [lia|]. split; [reflexivity|intros a []].
  - cbn [MSTeamsNotifications.send_to_recipients]. cbv zeta.
    fold (MSTeamsNotifications.card_for svc notification shared_context extra recipient).
    rewrite channel_count_cons.
    destruct (MSTeamsNotifications.card_for svc notification shared_context extra recipient) as [e|card_] eqn:Eb.
    { cbn. split; [lia|]. split; [discriminate|intros a []]. }
    cbn [MSTeamsNotifications.tbind MSTeamsNotifications.call].
    pose proof (send_to_channels_sends svc card_ channels) as Hc. cbv zeta in Hc.
    destruct (MSTeamsNotifications.send_to_channels svc card_ channels) as [[e|[]] t].
    { cbn [fst snd] in *. destruct Hc as (Hle & _ & Hin). cbn.
      split; [lia|]. split; [discriminate|].
      intros a Ha. destruct (Hin a Ha) as (c & i & cid & Hci & ->).
      exists recipient, channels, c, i, cid, card_.
      repeat split; [left; reflexivity|exact Hci|exact Eb]. }
    destruct (MSTeamsNotifications.send_to_recipients svc notification shared_context extra rest)
      as [r t'].
    cbn [fst snd] in *. destruct Hc as (Hle & Heq & Hin). destruct IH as (IHle & IHeq & IHin).
    cbn [MSTeamsNotifications.tbind fst snd app filter MSTeamsNotifications.is_send].
    rewrite filter_app, length_app.
    split; [|split].
    + specialize (Heq eq_refl). lia.
    + intros Hr. rewrite (Heq eq_refl), (IHeq Hr). reflexivity.
    + intros a Ha. apply in_app_or in Ha. destruct Ha as [Ha|Ha].
      * destruct (Hin a Ha) as (c & i & cid & Hci & ->).
        exists recipient, channels, c, i, cid, card_.
        repeat split; [left; reflexivity|exact Hci|exact Eb].
      * destruct (IHin a Ha) as (rc & chs & c & i & cid & cd & Hd & Hci & Hb & ->).
        exists rc, chs, c, i, cid, cd.
        repeat split; [right; exact Hd|exact Hci|exact Hb].
Qed.

Lemma is_supported_iff (notification : MSTeamsNotifications.Notification) :
  MSTeamsNotifications.is_supported_notification_type notification = true <->
  In "NoteActivityNotification" (MSTeamsNotifications.classes notification).
Proof.
  unfold MSTeamsNotifications.is_supported_notification_type,
    MSTeamsNotifications.SUPPORTED_NOTIFICATION_TYPES, MSTeamsNotifications.isinstance.
  cbn [map existsb]. rewrite orb_false_r, existsb_exists. split.
  - intros (c & Hc & E). apply String.eqb_eq in E. subst c. exact Hc.
  - intros H. exists "NoteActivityNotification". split; [exact H|apply String.eqb_refl].
Qed.

(** X25: for a notification that is not an instance of
    [NoteActivityNotification], [send_notification_as_msteams] returns
    after one log line: no integration is looked up, no card is built and
    nothing is sent. *)
Theorem msteams_unsupported_notification_sends_nothing
    (svc : MSTeamsNotifications.services)
    (notification : MSTeamsNotifications.Notification)
    (recipients : list MSTeamsNotifications.Recipient) (shared_context : MSTeams.value)
    (extra : option (list (Z * MSTeams.value))) :
  ~ In "NoteActivityNotification" (MSTeamsNotifications.classes notification) ->
  MSTeamsNotifications.send_notification_as_msteams svc notification recipients
    shared_context extra =
  (inr tt,
   [MSTeamsNotifications.LogInfo
      ("Unsupported notification type for Microsoft Teams "
       ++ MSTeamsNotifications.notification_str notification)]).
Proof.
  intros Hn. unfold MSTeamsNotifications.send_notification_as_msteams.
  destruct (MSTeamsNotifications.is_supported_notification_type notification) eqn:E.
  - apply is_supported_iff in E. contradiction.
  - reflexivity.
Qed.

Lemma msteams_unsupported_notification_sends_nothing_witness :
  MSTeamsNotifications.send_notification_as_msteams teams_services digest_notification
    teams_recipients (MSTeams.VDict []) None =
  (inr tt,
   [MSTeamsNotifications.LogInfo
      ("Unsupported notification type for Microsoft Teams "
       ++ MSTeamsNotifications.notification_str digest_notification)]).
Proof.
  apply (msteams_unsupported_notification_sends_nothing teams_services digest_notification
           teams_recipients (MSTeams.VDict []) None).
  intros [H|[H|[H|[H|[]]]]]; discriminate H.
Defined.

(** X26: for a [NoteActivityNotification], the number of cards sent never
    exceeds the number of (recipient, channel) pairs of the integration
    lookup and equals it when the call returns; every card sent goes to an
    integration looked up for some recipient and is the card built for
    that recipient. *)
Theorem msteams_cards_delivery (svc : MSTeamsNotifications.services)
    (notification : MSTeamsNotifications.Notification)
    (recipients : list MSTeamsNotifications.Recipient) (shared_context : MSTeams.value)
    (extra : option (list (Z * MSTeams.value))) :
  In "NoteActivityNotification" (MSTeamsNotifications.classes notification) ->
  let run := MSTeamsNotifications.send_notification_as_msteams svc notification recipients
               shared_context extra in
  let data_ := MSTeamsNotifications.get_integrations_by_channel_by_recipient svc
                 (MSTeamsNotifications.organization notification) recipients in
  (List.length (filter MSTeamsNotifications.is_send (snd run))
   <= MSTeamsNotifications.channel_count data_)%nat /\
  (fst run = inr tt ->
   List.length (filter MSTeamsNotifications.is_send (snd run))
   = MSTeamsNotifications.channel_count data_) /\
  (forall integration conversation_id card_,
     In (MSTeamsNotifications.SendCard integration conversation_id card_) (snd run) ->
     exists recipient channels channel,
       In (recipient, channels) data_ /\ In (channel, integration) channels /\
       MSTeamsNotifications.build_card svc notification
         (MSTeamsNotifications.get_context svc notification recipient shared_context
            (MSTeamsNotifications.extra_context_for
               match extra with Some entries => entries | None => [] end
               (MSTeamsNotifications.recipient_id recipient)))
         recipient = inr card_).
Proof.
  intros Hs. apply is_supported_iff in Hs. cbv zeta.
  unfold MSTeamsNotifications.send_notification_as_msteams. rewrite Hs. cbn [negb].
  cbn [MSTeamsNotifications.tbind MSTeamsNotifications.call].
  pose proof (send_to_recipients_sends svc notification shared_context extra
                (MSTeamsNotifications.get_integrations_by_channel_by_recipient svc
                   (MSTeamsNotifications.organization notification) recipients)) as H.
  cbv zeta in H.
  destruct (MSTeamsNotifications.send_to_recipients svc notification shared_context extra _)
    as [r t].
  cbn [fst snd app filter MSTeamsNotifications.is_send] in *.
  destruct H as (Hle & Heq & Hin). split; [exact Hle|]. split; [exact Heq|].
  intros integration conversation_id card_ [Ha|Ha]; [discriminate Ha|].
  destruct (Hin (MSTeamsNotifications.SendCard integration conversation_id card_))
    as (rc & chs & c & i & cid & cd & Hd & Hci & Hb & E).
  { apply filter_In. split; [exact Ha|reflexivity]. }
  injection E as <- <- <-. exists rc, chs, c. repeat split; assumption.
Qed.

Lemma msteams_cards_delivery_witness :
  List.length
    (filter MSTeamsNotifications.is_send
       (snd (MSTeamsNotifications.send_notification_as_msteams teams_services
               note_notification teams_recipients (MSTeams.VDict []) None)))
  = MSTeamsNotifications.channel_count
      (MSTeamsNotifications.get_integrations_by_channel_by_recipient teams_services
         (MSTeamsNotifications.organization note_notification) teams_recipients).
Proof.
  apply (proj1 (proj2 (msteams_cards_delivery teams_services note_notification
                         teams_recipients (MSTeams.VDict []) None
                         ltac:(left; reflexivity)))).
  reflexivity.
Defined.

(** X27: [get_conversation_id] asks for the conversation of the user in
    the tenant of the first member of the list, whatever the other
    members are; when the member list is empty it raises [IndexError] and
    when the response has no member list it raises [TypeError], in both
    cases without asking for a conversation. *)
Theorem msteams_conversation_uses_first_member (svc : MSTeamsNotifications.services)
    (client : MSTeamsNotifications.Integration) (user_id integration_id_ : string)
    (response : list (string * MSTeams.value)) :
  MSTeamsNotifications.get_member_list svc client integration_id_ = inr response ->
  (forall entries rest,
     MSTeams.kwargs_get response "members" = MSTeams.VList (MSTeams.VDict entries :: rest) ->
     MSTeamsNotifications.get_conversation_id svc client user_id integration_id_ =
     (MSTeamsNotifications.get_user_conversation_id svc client user_id
        (MSTeams.kwargs_get entries "tenantId"),
      [MSTeamsNotifications.GetMemberList client integration_id_;
       MSTeamsNotifications.GetUserConversationId client user_id
         (MSTeams.kwargs_get entries "tenantId")])) /\
  (MSTeams.kwargs_get response "members" = MSTeams.VList [] ->
     MSTeamsNotifications.get_conversation_id svc client user_id integration_id_ =
     (inl MSTeamsNotifications.IndexError,
      [MSTeamsNotifications.GetMemberList client integration_id_])) /\
  (MSTeams.kwargs_get response "members" = MSTeams.VNone ->
     MSTeamsNotifications.get_conversation_id svc client user_id integration_id_ =
     (inl MSTeamsNotifications.TypeError,
      [MSTeamsNotifications.GetMemberList client integration_id_])).
Proof.
  intros Hr. unfold MSTeamsNotifications.get_conversation_id, MSTeamsNotifications.call.
  rewrite Hr. cbn [MSTeamsNotifications.tbind]. repeat split.
  - intros entries rest ->. cbn.
    destruct (MSTeamsNotifications.get_user_conversation_id svc client user_id _);
      reflexivity.
  - intros ->. reflexivity.
  - intros ->. reflexivity.
Qed.

Lemma msteams_conversation_uses_first_member_witness :
  MSTeamsNotifications.get_conversation_id teams_services teams_integration "ada" "team" =
  (MSTeamsNotifications.get_user_conversation_id teams_services teams_integration "ada"
     (MSTeams.kwargs_get [("tenantId", MSTeams.VStr "tenant-1")] "tenantId"),
   [MSTeamsNotifications.GetMemberList teams_integration "team";
    MSTeamsNotifications.GetUserConversationId teams_integration "ada"
      (MSTeams.kwargs_get [("tenantId", MSTeams.VStr "tenant-1")] "tenantId")]).
Proof.
  apply (proj1 (msteams_conversation_uses_first_member teams_services
                  teams_integration "ada" "team"
                  [("members",
                    MSTeams.VList [MSTeams.VDict [("tenantId", MSTeams.VStr "tenant-1")]])]
                  eq_refl)
               [("tenantId", MSTeams.VStr "tenant-1")] [] eq_refl).
Defined.

(** * The null percentage in binary64 arithmetic *)

Lemma percentages_in_range_spec (n : Z) (count : nat) (k0 : Z) :
  percentages_in_range n count k0 = true ->
  forall k, k0 <= k < k0 + Z.of_nat count -> percentage_in_range n k = true.
Proof.
  revert k0. induction count as [|count IH]; intros k0 H k Hk; [lia|].
  cbn [percentages_in_range] in H. apply andb_prop in H. destruct H as [H0 H].
  destruct (Z.eq_dec k k0) as [->|Hne]; [exact H0|].
  apply (IH (k0 + 1) H). lia.
Qed.

Lemma samples_in_range_spec (count : nat) (n0 : Z) :
  0 <= n0 -> samples_in_range count n0 = true ->
  forall n k, n0 <= n < n0 + Z.of_nat count -> 0 <= k <= n ->
              percentage_in_range n k = true.
Proof.
  revert n0. induction count as [|count IH]; intros n0 Hn0 H n k Hn Hk; [lia|].
  cbn [samples_in_range] in H. apply andb_prop in H. destruct H as [H0 H].
  destruct (Z.eq_dec n n0) as [->|Hne].
  - apply (percentages_in_range_spec n0 _ 0 H0). lia.
  - apply (IH (n0 + 1) ltac:(lia) H); lia.
Qed.

Lemma samples_in_range_upto_1000 : samples_in_range 1000 1 = true.
Proof. vm_compute. reflexivity. Qed.

(** X28: in binary64 arithmetic, for every sample of 1 to 1000 rows of
    which [k] have a numeric rate, [(n - k) / n * 100] lies in [[0, 100]];
    it is exactly 100 when no row has a rate and exactly 0 when every row
    has one. *)
Theorem binary64_null_percentage_bounds (n k : Z) :
  1 <= n <= 1000 -> 0 <= k <= n ->
  let pct := Binary64.null_sample_rate_percentage n k in
  PrimFloat.leb 0 pct = true /\ PrimFloat.leb pct 100 = true /\
  (k = 0 -> PrimFloat.eqb pct 100 = true) /\
  (k = n -> PrimFloat.eqb pct 0 = true).
Proof.
  intros Hn Hk. cbv zeta.
  pose proof (samples_in_range_spec 1000 1 ltac:(lia) samples_in_range_upto_1000
                n k ltac:(lia) Hk) as H.
  unfold percentage_in_range in H. cbv zeta in H.
  apply andb_prop in H. destruct H as [H Hall].
  apply andb_prop in H. destruct H as [H Hnone].
  apply andb_prop in H. destruct H as [H0 H100].
  repeat split; try assumption.
  - intros ->. exact Hnone.
  - intros ->. rewrite Z.eqb_refl in Hall. exact Hall.
Qed.

Lemma binary64_null_percentage_bounds_witness :
  PrimFloat.leb 0 (Binary64.null_sample_rate_percentage 5 3) = true /\
  PrimFloat.leb (Binary64.null_sample_rate_percentage 5 3) 100 = true /\
  (3 = 0 -> PrimFloat.eqb (Binary64.null_sample_rate_percentage 5 3) 100 = true) /\
  (3 = 5 -> PrimFloat.eqb (Binary64.null_sample_rate_percentage 5 3) 0 = true).
Proof.
  apply (binary64_null_percentage_bounds 5 3); lia.
Defined.
